(** * The IP route access layer of terraform-provider-netapp-ontap

    A shallow embedding of [interfaces.GetIPRoute], [interfaces.CreateIPRoute],
    [interfaces.DeleteIPRoute], of the [IPRouteResource] CRUD methods and of
    [StorageVolumeSnapshotDataSource.Read], followed by the properties the
    specification states about them.

    Go packages are Rocq modules of the same name.  Code that performs
    effects (reporting a diagnostic, calling the REST transport, setting the
    Terraform state) runs in a small state monad over [World]; a Go run-time
    panic is the [Panic] outcome.  Logging ([tflog]) is left out. *)

From Stdlib Require Import Floats.
From stdpp Require Import gmap strings list fin_maps pretty.

Set Warnings "-register-all".
Open Scope string_scope.
Open Scope list_scope.

(** ** Go values *)

(** A Go [error] is known to this code only through its text ([%s]). *)
Definition error : Type := string.

(** [float64] values are carried around and never computed with. *)
Definition float64 : Type := float.

(** An untyped value as the transport hands it over ([interface{}]): the
    nested shape of a decoded JSON document.  [RawInt] stands for every Go
    number that holds an integral value. *)
Inductive RawValue : Type :=
  | RawNil
  | RawBool (b : bool)
  | RawString (s : string)
  | RawInt (n : Z)
  | RawList (l : list RawValue)
  | RawMap (m : gmap string RawValue).

(** [map[string]interface{}] *)
Abbreviation RawRecord := (gmap string RawValue).

(** The name [reflect] gives to the kind of a raw value. *)
Definition kindOf (v : RawValue) : string :=
  match v with
  | RawNil => "nil"
  | RawBool _ => "bool"
  | RawString _ => "string"
  | RawInt _ => "int64"
  | RawList _ => "[]interface {}"
  | RawMap _ => "map[string]interface {}"
  end.

(** ** Package fmt *)
Module fmt.

(** The verb [%d]. *)
Definition d (n : Z) : string := pretty n.

(** The verb [%#v]: the Go-syntax rendering of a value.  Its text is fixed
    by the Go run time; nothing below depends on it. *)
Class GoSyntax (A : Type) := v : A -> string.

End fmt.

(** [contains s sub]: [sub] occurs in [s] (as [strings.Contains]). *)
Definition contains (s sub : string) : Prop :=
  exists pre post : string, s = pre +:+ sub +:+ post.


(** ** terraform-plugin-framework: attribute values and diagnostics *)
Module types.

Inductive String : Type :=
  | StringNull
  | StringUnknown
  | StringValue (s : string).

Definition IsNull (x : String) : bool :=
  match x with StringNull => true | _ => false end.

Definition ValueString (x : String) : string :=
  match x with StringValue s => s | _ => "" end.

Inductive Int64 : Type :=
  | Int64Null
  | Int64Unknown
  | Int64Value (n : Z).

Definition Int64IsNull (x : Int64) : bool :=
  match x with Int64Null => true | _ => false end.

Definition ValueInt64 (x : Int64) : Z :=
  match x with Int64Value n => n | _ => 0%Z end.

Inductive Float64 : Type :=
  | Float64Null
  | Float64Unknown
  | Float64Value (f : float64).

End types.

Module diag.

Inductive Severity : Type := SeverityError | SeverityWarning.

Record Diagnostic : Type := mkDiagnostic {
  Severity_ : Severity;
  Summary : string;
  Detail : string
}.

Abbreviation Diagnostics := (list Diagnostic).

Definition NewErrorDiagnostic (summary detail : string) : Diagnostic :=
  mkDiagnostic SeverityError summary detail.

Definition isError (x : Diagnostic) : bool :=
  match Severity_ x with SeverityError => true | SeverityWarning => false end.

Definition HasError (ds : Diagnostics) : bool := existsb isError ds.

Definition AddError (ds : Diagnostics) (summary detail : string) : Diagnostics :=
  ds ++ [NewErrorDiagnostic summary detail].

Definition Append (ds more : Diagnostics) : Diagnostics := ds ++ more.

End diag.

(** ** Package restclient

    The package is consumed, not defined, by the files verified here: the
    client is the interface the operations call, a query is what the
    specification says of it. *)
Module restclient.

(** Modelled from the spec: [restclient.RestQuery] is not among the
    sources.  A query is a collection of filter key -> value(s) pairs plus
    a field-projection list. *)
Record RestQuery : Type := mkRestQuery {
  Values : gmap string (list string);
  Projection : list string
}.

(** Modelled from the spec: [RestClient.NewQuery], a query with no filter and
    no projection. *)
Definition emptyQuery : RestQuery := mkRestQuery ∅ [].

(** Modelled from the spec: [RestQuery.Set] replaces any existing value of
    the key. *)
Definition Set_ (q : RestQuery) (key value : string) : RestQuery :=
  mkRestQuery (<[key := [value]]> (Values q)) (Projection q).

(** Modelled from the spec: [RestQuery.Add] appends to a multi-valued
    filter. *)
Definition Add (q : RestQuery) (key value : string) : RestQuery :=
  mkRestQuery (<[key := default [] (Values q !! key) ++ [value]]> (Values q))
              (Projection q).

(** Modelled from the spec: [RestQuery.Fields] sets the field-projection
    list, overwriting any prior projection. *)
Definition Fields (q : RestQuery) (fields : list string) : RestQuery :=
  mkRestQuery (Values q) fields.

(** [RestResponse]: the record list of a write's reply. *)
Record RestResponse : Type := mkRestResponse {
  NumRecords : Z;
  Records : list RawRecord
}.

Inductive Method : Type := GET | POST | DELETE.

(** One request put on the wire. *)
Record Call : Type := mkCall {
  method : Method;
  path : string;
  query : option RestQuery;
  body : option RawRecord
}.

(** The client as the operations see it: what each method answers, as
    [(statusCode, response, err)].  The requests themselves are recorded in
    the [World] by the operations' calls. *)
Record RestClient : Type := mkRestClient {
  GetNilOrOneRecord :
    string -> RestQuery -> option RawRecord -> Z * option RawRecord * option error;
  CallCreateMethod :
    string -> RestQuery -> RawRecord -> Z * RestResponse * option error;
  CallDeleteMethod :
    string -> option RestQuery -> option RawRecord -> Z * RestResponse * option error
}.

(** Modelled from the spec: the text of the error the cardinality resolver
    raises for an ambiguous result is not among the sources. *)
Definition AmbiguousResultError (n : nat) : error :=
  "AmbiguousResult: " +:+ pretty n +:+ " records returned where at most one is expected".

(** Modelled from the spec: [RestClient.GetNilOrOneRecord] is not among the
    sources.  Given what a read returned: a transport-level failure fails
    with its error; zero records are "absent" (no record, no error); exactly
    one record is that record; more than one fails with an AmbiguousResult
    error and no record. *)
Definition resolveNilOrOne (reply : Z * list RawRecord * option error)
  : Z * option RawRecord * option error :=
  match reply with
  | (statusCode, _, Some err) => (statusCode, None, Some err)
  | (statusCode, [], None) => (statusCode, None, None)
  | (statusCode, [record], None) => (statusCode, Some record, None)
  | (statusCode, records, None) =>
      (statusCode, None, Some (AmbiguousResultError (length records)))
  end.

(** Modelled from the spec: a client whose reads go through the cardinality
    resolver, over a transport that returns the list of matching records. *)
Definition resolvingClient
    (get : string -> RestQuery -> Z * list RawRecord * option error)
    (create : string -> RestQuery -> RawRecord -> Z * RestResponse * option error)
    (delete : string -> option RestQuery -> option RawRecord -> Z * RestResponse * option error)
  : RestClient :=
  mkRestClient (fun api q _ => resolveNilOrOne (get api q)) create delete.

End restclient.

(** ** The world the operations act on *)

(** [Diagnostics] is the response's diagnostics, which the error handler
    shares by pointer; [State] is the response's Terraform state, kept as the
    model it decodes to; [Calls] are the requests put on the wire, oldest
    first. *)
Record World (S : Type) : Type := mkWorld {
  Diagnostics : diag.Diagnostics;
  State : S;
  Calls : list restclient.Call
}.
Arguments mkWorld {S} _ _ _.
Arguments Diagnostics {S} _.
Arguments State {S} _.
Arguments Calls {S} _.

Inductive Outcome (A : Type) : Type :=
  | Done (a : A)
  | Panic (msg : string).
Arguments Done {A} a.
Arguments Panic {A} msg.

Definition M (S A : Type) : Type := World S -> Outcome A * World S.

#[global] Instance M_ret {S} : MRet (M S) := fun A a w => (Done a, w).

#[global] Instance M_bind {S} : MBind (M S) := fun A B k m w =>
  match m w with
  | (Done a, w') => k a w'
  | (Panic msg, w') => (Panic msg, w')
  end.

Definition panic {S A} (msg : string) : M S A := fun w => (Panic msg, w).

Definition addError {S} (summary detail : string) : M S unit :=
  fun w => (Done tt, mkWorld (diag.AddError (Diagnostics w) summary detail) (State w) (Calls w)).

Definition appendDiagnostics {S} (ds : diag.Diagnostics) : M S unit :=
  fun w => (Done tt, mkWorld (diag.Append (Diagnostics w) ds) (State w) (Calls w)).

Definition hasError {S} : M S bool :=
  fun w => (Done (diag.HasError (Diagnostics w)), w).

Definition setState {S} (s : S) : M S unit :=
  fun w => (Done tt, mkWorld (Diagnostics w) s (Calls w)).

Definition send {S} (c : restclient.Call) : M S unit :=
  fun w => (Done tt, mkWorld (Diagnostics w) (State w) (Calls w ++ [c])).

(** The three client methods as the operations call them: the request is put
    on the wire and the client's answer comes back. *)
Definition GetNilOrOneRecord {S} (r : restclient.RestClient) (api : string)
    (q : restclient.RestQuery) (b : option RawRecord)
  : M S (Z * option RawRecord * option error) :=
  send (restclient.mkCall restclient.GET api (Some q) b) ;;
  mret (restclient.GetNilOrOneRecord r api q b).

Definition CallCreateMethod {S} (r : restclient.RestClient) (api : string)
    (q : restclient.RestQuery) (b : RawRecord)
  : M S (Z * restclient.RestResponse * option error) :=
  send (restclient.mkCall restclient.POST api (Some q) (Some b)) ;;
  mret (restclient.CallCreateMethod r api q b).

Definition CallDeleteMethod {S} (r : restclient.RestClient) (api : string)
    (q : option restclient.RestQuery) (b : option RawRecord)
  : M S (Z * restclient.RestResponse * option error) :=
  send (restclient.mkCall restclient.DELETE api q b) ;;
  mret (restclient.CallDeleteMethod r api q b).

(** [types.Float64Value] as the operations call it: the framework's
    constructor panics on a NaN. *)
Definition Float64Value {S} (value : float64) : M S types.Float64 :=
  if PrimFloat.is_nan value then panic "NewFloat(NaN)"
  else mret (types.Float64Value value).

(** ** Package utils *)
Module utils.

(** A classified error: a stable summary and a detail string. *)
Record ClassifiedError : Type := mkClassifiedError {
  summary : string;
  detail : string
}.

(** Modelled from the spec: [utils.ErrorHandler] is not among the sources.
    The error classifier turns a (message, detail) pair into a reportable
    diagnostic: the pair is added to the diagnostics as an error and comes
    back as the operation's error. *)
Definition MakeAndReportError {S} (summary detail : string) : M S ClassifiedError :=
  addError summary detail ;;
  mret (mkClassifiedError summary detail).

End utils.

(** ** Package mapstructure *)
Module mapstructure.

(** Modelled from the spec: the response decoder
    (github.com/mitchellh/mapstructure) is not among the sources.  It maps
    a raw record into a typed record according to a static
    field-name-to-target mapping (the [mapstructure] tags of the struct
    declarations), nested records included; a type mismatch fails the whole
    decode.  As in the library, a key that is absent, or whose value is nil,
    leaves the target at its zero value, and keys without a target are
    ignored. *)
Definition unconvertible (name expected : string) (x : RawValue) : error :=
  "'" +:+ name +:+ "' expected type '" +:+ expected
      +:+ "', got unconvertible type '" +:+ kindOf x +:+ "'".

(** Modelled from the spec: a string target takes a string. *)
Definition decodeString (name : string) (x : RawValue) : error + string :=
  match x with
  | RawNil => inr ""
  | RawString s => inr s
  | _ => inl (unconvertible name "string" x)
  end.

(** Modelled from the spec: an integer target takes a number. *)
Definition decodeInt (name : string) (x : RawValue) : error + Z :=
  match x with
  | RawNil => inr 0%Z
  | RawInt n => inr n
  | _ => inl (unconvertible name "int64" x)
  end.

(** Modelled from the spec: a nested record takes a nested raw record. *)
Definition decodeStruct {A} (zero : A) (fromMap : RawRecord -> error + A)
    (name : string) (x : RawValue) : error + A :=
  match x with
  | RawNil => inr zero
  | RawMap m => fromMap m
  | _ => inl ("'" +:+ name +:+ "' expected a map, got '" +:+ kindOf x +:+ "'")
  end.

(** Modelled from the spec: the target of key [key] is decoded from the key's
    value when the map has the key, and left at [zero] otherwise. *)
Definition field {A} (m : RawRecord) (key : string) (zero : A)
    (dec : string -> RawValue -> error + A) : error + A :=
  match m !! key with
  | Some x => dec key x
  | None => inr zero
  end.

Definition andThen {A B} (x : error + A) (k : A -> error + B) : error + B :=
  match x with
  | inl e => inl e
  | inr a => k a
  end.

End mapstructure.

(** ** Package interfaces *)
Module interfaces.

Import mapstructure.

(** [DestinationDataSourceModel] *)
Record DestinationDataSourceModel : Type := mkDestination {
  Address : string;   (* mapstructure:"address" *)
  Netmask : string    (* mapstructure:"netmask" *)
}.

(** [Vserver]: declared in a file of the package that is not among the
    sources; the operations use its [Name] only. *)
Record Vserver : Type := mkVserver {
  Name : string       (* mapstructure:"name" *)
}.

(** [IPRouteGetDataModelONTAP] *)
Record IPRouteGetDataModelONTAP : Type := mkIPRouteGet {
  Destination : DestinationDataSourceModel;  (* mapstructure:"destination" *)
  UUID : string;                             (* mapstructure:"uuid" *)
  Gateway : string;                          (* mapstructure:"gateway" *)
  Metric : Z;                                (* mapstructure:"metric" *)
  SVMName : Vserver                          (* mapstructure:"svm" *)
}.

(** [IPRouteResourceBodyDataModelONTAP] *)
Module Body.
Record IPRouteResourceBodyDataModelONTAP : Type := mkIPRouteBody {
  Destination : DestinationDataSourceModel;  (* mapstructure:"destination" *)
  SVM : Vserver;                             (* mapstructure:"svm" *)
  Gateway : string;                          (* mapstructure:"gateway" *)
  Metric : Z                                 (* mapstructure:"metric" *)
}.
End Body.
Abbreviation IPRouteResourceBodyDataModelONTAP := Body.IPRouteResourceBodyDataModelONTAP.

(** [versionModelONTAP] and the cluster record that carries it: declared in
    a file of the package that is not among the sources. *)
Record versionModelONTAP : Type := mkVersion {
  Generation : Z;
  Major : Z;
  Minor : Z
}.

Record Cluster : Type := mkCluster {
  Version : versionModelONTAP
}.

(** *** Decoding raw records ([mapstructure.Decode] into a struct) *)

(** The zero values of the nested structs. *)
Definition zeroDestination : DestinationDataSourceModel := mkDestination "" "".
Definition zeroVserver : Vserver := mkVserver "".

(** Modelled from the spec: the decoder at [DestinationDataSourceModel], by
    its tags. *)
Definition decodeDestination : string -> RawValue -> error + DestinationDataSourceModel :=
  decodeStruct zeroDestination (fun m =>
    andThen (field m "address" "" decodeString) (fun address =>
    andThen (field m "netmask" "" decodeString) (fun netmask =>
    inr (mkDestination address netmask)))).

(** Modelled from the spec: the decoder at [Vserver], by its tag. *)
Definition decodeVserver : string -> RawValue -> error + Vserver :=
  decodeStruct zeroVserver (fun m =>
    andThen (field m "name" "" decodeString) (fun name =>
    inr (mkVserver name))).

(** Modelled from the spec: the decoder at [IPRouteGetDataModelONTAP], by its
    tags ([mapstructure.Decode(response, &dataONTAP)]). *)
Definition decodeIPRouteGet (m : RawRecord) : error + IPRouteGetDataModelONTAP :=
  andThen (field m "destination" zeroDestination decodeDestination) (fun destination =>
  andThen (field m "uuid" "" decodeString) (fun uuid =>
  andThen (field m "gateway" "" decodeString) (fun gateway =>
  andThen (field m "metric" 0%Z decodeInt) (fun metric =>
  andThen (field m "svm" zeroVserver decodeVserver) (fun svm =>
  inr (mkIPRouteGet destination uuid gateway metric svm)))))).

(** *** Encoding records ([mapstructure.Decode] into a map)

    The raw form of a record has one key per tagged field; a nested struct
    becomes a nested raw record. *)

(** Modelled from the spec: the raw form of a [DestinationDataSourceModel]. *)
Definition encodeDestination (x : DestinationDataSourceModel) : RawRecord :=
  <["address" := RawString (Address x)]> (<["netmask" := RawString (Netmask x)]> ∅).

(** Modelled from the spec: the raw form of a [Vserver]. *)
Definition encodeVserver (x : Vserver) : RawRecord :=
  <["name" := RawString (Name x)]> ∅.

(** Modelled from the spec: the raw form of an [IPRouteGetDataModelONTAP]. *)
Definition encodeIPRouteGet (x : IPRouteGetDataModelONTAP) : RawRecord :=
  <["destination" := RawMap (encodeDestination (Destination x))]> (
  <["uuid" := RawString (UUID x)]> (
  <["gateway" := RawString (Gateway x)]> (
  <["metric" := RawInt (Metric x)]> (
  <["svm" := RawMap (encodeVserver (SVMName x))]> ∅)))).

(** Modelled from the spec: the raw form of the body
    ([mapstructure.Decode(body, &bodyMap)]).  Every field of the body has a
    raw form, so the encoding never fails. *)
Definition encodeIPRouteBody (x : IPRouteResourceBodyDataModelONTAP) : error + RawRecord :=
  inr (<["destination" := RawMap (encodeDestination (Body.Destination x))]> (
       <["svm" := RawMap (encodeVserver (Body.SVM x))]> (
       <["gateway" := RawString (Body.Gateway x)]> (
       <["metric" := RawInt (Body.Metric x)]> ∅)))).

Section Operations.

Context {S : Type}.
Context {rawSyntax : fmt.GoSyntax RawRecord}
        {responseSyntax : fmt.GoSyntax restclient.RestResponse}
        {bodySyntax : fmt.GoSyntax IPRouteResourceBodyDataModelONTAP}.

(** The query of [GetIPRoute] (lines 38 to 50 of the function). *)
Definition GetIPRoute_query (Destination svmName : string)
    (version : versionModelONTAP) : restclient.RestQuery :=
  let query := restclient.emptyQuery in
  let query := restclient.Set_ query "destination.address" Destination in
  let query :=
    if decide (svmName = "") then
      restclient.Set_ query "scope" "cluster"
    else
      let query := restclient.Set_ query "svm.name" svmName in
      restclient.Set_ query "scope" "svm" in
  let fields := ["destination"; "svm.name"; "gateway"; "scope"] in
  let fields :=
    if decide (Generation version = 9 ∧ Major version > 10)%Z then
      fields ++ ["metric"]
    else fields in
  restclient.Fields query fields.

(** [GetIPRoute] to get net_route info *)
Definition GetIPRoute (r : restclient.RestClient) (Destination svmName : string)
    (version : versionModelONTAP)
  : M S (option IPRouteGetDataModelONTAP * option utils.ClassifiedError) :=
  let api := "/network/ip/routes" in
  let query := GetIPRoute_query Destination svmName version in
  '(statusCode, response, err) ← GetNilOrOneRecord r api query None;
  let err :=
    match err, response with
    | None, None => Some ("no response for GET " +:+ api)
    | _, _ => err
    end in
  match err with
  | Some err =>
      e ← utils.MakeAndReportError "error reading /network/ip/routes info"
            ("error on GET " +:+ api +:+ ": " +:+ err
               +:+ ", statusCode " +:+ fmt.d statusCode);
      mret (None, Some e)
  | None =>
      match decodeIPRouteGet (default ∅ response) with
      | inl err =>
          e ← utils.MakeAndReportError ("failed to decode response from GET " +:+ api)
                ("error: " +:+ err +:+ ", statusCode " +:+ fmt.d statusCode
                   +:+ ", response " +:+ fmt.v (default ∅ response));
          mret (None, Some e)
      | inr dataONTAP => mret (Some dataONTAP, None)
      end
  end.

(** [CreateIPRoute] to create net_route *)
Definition CreateIPRoute (r : restclient.RestClient)
    (body : IPRouteResourceBodyDataModelONTAP)
  : M S (option IPRouteGetDataModelONTAP * option utils.ClassifiedError) :=
  let api := "/network/ip/routes" in
  match encodeIPRouteBody body with
  | inl err =>
      e ← utils.MakeAndReportError "error encoding /network/ip/routes body"
            ("error on encoding " +:+ api +:+ " body: " +:+ err
               +:+ ", body: " +:+ fmt.v body);
      mret (None, Some e)
  | inr bodyMap =>
      let query := restclient.emptyQuery in
      let query := restclient.Add query "return_records" "true" in
      '(statusCode, response, err) ← CallCreateMethod r api query bodyMap;
      match err with
      | Some err =>
          e ← utils.MakeAndReportError "error creating /network/ip/routes"
                ("error on POST " +:+ api +:+ ": " +:+ err
                   +:+ ", statusCode " +:+ fmt.d statusCode);
          mret (None, Some e)
      | None =>
          match restclient.Records response with
          | [] => panic "runtime error: index out of range [0] with length 0"
          | record :: _ =>
              match decodeIPRouteGet record with
              | inl err =>
                  e ← utils.MakeAndReportError "error decoding /network/ip/routes info"
                        ("error on decode /network/ip/routes info: " +:+ err
                           +:+ ", statusCode " +:+ fmt.d statusCode
                           +:+ ", response " +:+ fmt.v response);
                  mret (None, Some e)
              | inr dataONTAP => mret (Some dataONTAP, None)
              end
          end
      end
  end.

(** [DeleteIPRoute] to delete net_route *)
Definition DeleteIPRoute (r : restclient.RestClient) (uuid : string)
  : M S (option utils.ClassifiedError) :=
  let api := "/network/ip/routes" in
  '(statusCode, _, err) ← CallDeleteMethod r (api +:+ "/" +:+ uuid) None None;
  match err with
  | Some err =>
      e ← utils.MakeAndReportError "error deleting /network/ip/routes"
            ("error on DELETE " +:+ api +:+ ": " +:+ err
               +:+ ", statusCode " +:+ fmt.d statusCode);
      mret (Some e)
  | None => mret None
  end.

End Operations.

End interfaces.

(** ** terraform-plugin-framework: requests

    [tfsdk.State], [tfsdk.Plan] and [tfsdk.Config] are read through [Get],
    which decodes them into the model and yields diagnostics: a request is kept
    as what its [Get] produces, the diagnostics and the model it filled. *)
Module tfsdk.

Record Data (T : Type) : Type := mkData {
  GetDiagnostics : diag.Diagnostics;
  GetValue : T
}.
Arguments mkData {T} _ _.
Arguments GetDiagnostics {T} _.
Arguments GetValue {T} _.

End tfsdk.

(** ** Package provider *)
Module provider.

(** Modelled from the spec: the provider configuration is not among the
    sources.  It wires a named connection profile to a client instance, or
    fails with an error. *)
Record Config : Type := mkConfig {
  NewClient : string -> restclient.RestClient + utils.ClassifiedError
}.

Record resourceOrDataSourceConfig : Type := mkResourceOrDataSourceConfig {
  name : string;
  providerConfig : Config
}.

(** Modelled from the spec: [getRestClient] is not among the sources.  It
    gets the client of the connection profile named in the model; Go's
    (client, err) pair is a sum here, and on failure the error has been
    reported inside ("error reporting done inside NewClient"). *)
Definition getRestClient {S} (config : resourceOrDataSourceConfig)
    (cxProfileName : types.String)
  : M S (restclient.RestClient + utils.ClassifiedError) :=
  match NewClient (providerConfig config) (types.ValueString cxProfileName) with
  | inl client => mret (inl client)
  | inr e =>
      e ← utils.MakeAndReportError (utils.summary e) (utils.detail e);
      mret (inr e)
  end.

(** The provider's [DestinationDataSourceModel]: declared in a file of the
    package that is not among the sources; its two attributes are
    [types.String]s. *)
Record DestinationDataSourceModel : Type := mkDestinationModel {
  Address : types.String;
  Netmask : types.String
}.

(** [IPRouteResourceModel] describes the resource data model. *)
Record IPRouteResourceModel : Type := mkIPRouteResourceModel {
  CxProfileName : types.String;
  SVMName : types.String;
  Destination : option DestinationDataSourceModel;   (* a pointer *)
  Gateway : types.String;
  Metric : types.Int64;
  UUID : types.String
}.

(** [IPRouteResource] defines the resource implementation. *)
Record IPRouteResource : Type := mkIPRouteResource {
  config : resourceOrDataSourceConfig
}.

Definition NewIPRouteResource (providerConfig : Config) : IPRouteResource :=
  mkIPRouteResource (mkResourceOrDataSourceConfig "networking_ip_route_resource" providerConfig).

Record ReadRequest : Type := mkReadRequest { ReadState : tfsdk.Data IPRouteResourceModel }.
Record CreateRequest : Type := mkCreateRequest { CreatePlan : tfsdk.Data IPRouteResourceModel }.
Record UpdateRequest : Type := mkUpdateRequest { UpdatePlan : tfsdk.Data IPRouteResourceModel }.
Record DeleteRequest : Type := mkDeleteRequest { DeleteState : tfsdk.Data IPRouteResourceModel }.

Definition nilDereference : string :=
  "runtime error: invalid memory address or nil pointer dereference".

Section IPRoute.

Context {rawSyntax : fmt.GoSyntax RawRecord}
        {responseSyntax : fmt.GoSyntax restclient.RestResponse}
        {bodySyntax : fmt.GoSyntax interfaces.IPRouteResourceBodyDataModelONTAP}.

(** [interfaces.GetCluster] is not among the sources; it is a parameter: for
    a client it yields the cluster record, or fails with an error. *)
Variable GetCluster : restclient.RestClient -> interfaces.Cluster + utils.ClassifiedError.

(** The call of [interfaces.GetCluster]: on failure the error has been
    reported inside ("error reporting done inside GetCluster").  Its own
    traffic is not recorded. *)
Definition callGetCluster {S} (client : restclient.RestClient)
  : M S (interfaces.Cluster + utils.ClassifiedError) :=
  match GetCluster client with
  | inl cluster => mret (inl cluster)
  | inr e =>
      e ← utils.MakeAndReportError (utils.summary e) (utils.detail e);
      mret (inr e)
  end.

(** The response state of the resource: [None] is the null state. *)
Definition Resp : Type := M (option IPRouteResourceModel) unit.

(** [Read] refreshes the Terraform state with the latest data. *)
Definition IPRouteResource_Read (r : IPRouteResource) (req : ReadRequest) : Resp :=
  let data := tfsdk.GetValue (ReadState req) in
  appendDiagnostics (tfsdk.GetDiagnostics (ReadState req));;
  failed ← hasError;
  if failed : bool then mret tt else
  client ← getRestClient (config r) (CxProfileName data);
  match client with
  | inr _ => mret tt
  | inl client =>
  cluster ← callGetCluster client;
  match cluster with
  | inr _ => mret tt
  | inl cluster =>
  match Destination data with
  | None => panic nilDereference
  | Some destination =>
  '(restInfo, err) ← interfaces.GetIPRoute client
                       (types.ValueString (Address destination))
                       (types.ValueString (SVMName data))
                       (interfaces.Version cluster);
  match err with
  | Some _ => mret tt
  | None =>
  match restInfo with
  | None => panic nilDereference
  | Some restInfo =>
  let destination :=
    mkDestinationModel
      (types.StringValue (interfaces.Address (interfaces.Destination restInfo)))
      (types.StringValue (interfaces.Netmask (interfaces.Destination restInfo))) in
  let data :=
    mkIPRouteResourceModel
      (CxProfileName data)
      (types.StringValue (interfaces.Name (interfaces.SVMName restInfo)))
      (Some destination)
      (types.StringValue (interfaces.Gateway restInfo))
      (types.Int64Value (interfaces.Metric restInfo))
      (UUID data) in
  setState (Some data)
  end end end end end.

(** [Create] a resource and retrieve UUID *)
Definition IPRouteResource_Create (r : IPRouteResource) (req : CreateRequest) : Resp :=
  let data := tfsdk.GetValue (CreatePlan req) in
  appendDiagnostics (tfsdk.GetDiagnostics (CreatePlan req));;
  failed ← hasError;
  if failed : bool then mret tt else
  match Destination data with
  | None => panic nilDereference
  | Some destination =>
  let body :=
    interfaces.Body.mkIPRouteBody
      (interfaces.mkDestination (types.ValueString (Address destination))
                                (types.ValueString (Netmask destination)))
      (interfaces.mkVserver
         (if types.IsNull (SVMName data) then "" else types.ValueString (SVMName data)))
      (if types.IsNull (Gateway data) then "" else types.ValueString (Gateway data))
      (if types.Int64IsNull (Metric data) then 0%Z else types.ValueInt64 (Metric data)) in
  client ← getRestClient (config r) (CxProfileName data);
  match client with
  | inr _ => mret tt
  | inl client =>
  '(resource, err) ← interfaces.CreateIPRoute client body;
  match err with
  | Some _ => mret tt
  | None =>
  match resource with
  | None => panic nilDereference
  | Some resource =>
  let data :=
    mkIPRouteResourceModel (CxProfileName data) (SVMName data) (Destination data)
      (Gateway data) (Metric data) (types.StringValue (interfaces.UUID resource)) in
  setState (Some data)
  end end end end.

(** [Update] updates the resource and sets the updated Terraform state on
    success. *)
Definition IPRouteResource_Update (r : IPRouteResource) (req : UpdateRequest) : Resp :=
  let data := tfsdk.GetValue (UpdatePlan req) in
  appendDiagnostics (tfsdk.GetDiagnostics (UpdatePlan req));;
  failed ← hasError;
  if failed : bool then mret tt else
  setState (Some data).

(** [Delete] deletes the resource and removes the Terraform state on
    success. *)
Definition IPRouteResource_Delete (r : IPRouteResource) (req : DeleteRequest) : Resp :=
  let data := tfsdk.GetValue (DeleteState req) in
  appendDiagnostics (tfsdk.GetDiagnostics (DeleteState req));;
  failed ← hasError;
  if failed : bool then mret tt else
  client ← getRestClient (config r) (CxProfileName data);
  match client with
  | inr _ => mret tt
  | inl client =>
  if types.IsNull (UUID data) then
    utils.MakeAndReportError "UUID is null" "ip_interface UUID is null";;
    mret tt
  else
    err ← interfaces.DeleteIPRoute client (types.ValueString (UUID data));
    match err with
    | Some _ => mret tt
    | None => mret tt
    end
  end.

End IPRoute.

(** [req.ProviderData], an [any]: nil, a [Config], or a value of another
    type, of which the code uses the name that [%T] prints. *)
Inductive ProviderData : Type :=
  | ProviderDataNil
  | ProviderDataConfig (c : Config)
  | ProviderDataOther (typeName : string).

(** [Metadata] returns the resource type name. *)
Definition IPRouteResource_Metadata (r : IPRouteResource) (ProviderTypeName : string)
  : string :=
  ProviderTypeName +:+ "_" +:+ name (config r).

(** [Configure] adds the provider configured client to the resource.  A
    failed type assertion leaves [config] at the zero value of [Config],
    [zeroConfig], and the assignment follows in every case but nil. *)
Definition IPRouteResource_Configure {S} (zeroConfig : Config) (r : IPRouteResource)
    (data : ProviderData) : M S IPRouteResource :=
  match data with
  | ProviderDataNil => mret r
  | ProviderDataConfig c =>
      mret (mkIPRouteResource (mkResourceOrDataSourceConfig (name (config r)) c))
  | ProviderDataOther typeName =>
      addError "Unexpected Resource Configure Type"
        ("Expected Config, got: " +:+ typeName
           +:+ ". Please report this issue to the provider developers.");;
      mret (mkIPRouteResource (mkResourceOrDataSourceConfig (name (config r)) zeroConfig))
  end.

(** *** The storage volume snapshot data source *)
Module Snapshot.

(** [interfaces.StorageVolumeSnapshotGetDataModelONTAP] and its volume
    reference: declared in a file that is not among the sources; these are
    the fields [Read] uses. *)
Record NameDataModel : Type := mkNameDataModel {
  VolName : string;
  VolUUID : string
}.

Record StorageVolumeSnapshotGetDataModelONTAP : Type := mkSnapshotGet {
  GetCreateTime : string;
  GetComment : string;
  GetExpiryTime : string;
  GetName : string;
  GetSize : float64;
  GetSnapmirrorLabel : string;
  GetState : string;
  GetVolume : NameDataModel
}.

(** [StorageVolumeSnapshotDataSourceModel] describes the data source data
    model. *)
Record StorageVolumeSnapshotDataSourceModel : Type := mkSnapshotModel {
  CxProfileName : types.String;
  CreateTime : types.String;
  Comment : types.String;
  ExpiryTime : types.String;
  Name : types.String;
  Size : types.Float64;
  SnapmirrorLabel : types.String;
  State_ : types.String;
  VolumeUUID : types.String;
  VolumeName : types.String
}.

Record StorageVolumeSnapshotDataSource : Type := mkSnapshotDataSource {
  config : resourceOrDataSourceConfig
}.

Record ReadRequest : Type := mkReadRequest {
  Config_ : tfsdk.Data StorageVolumeSnapshotDataSourceModel
}.

Section Read.

(** [interfaces.GetStorageVolumeSnapshots] is not among the sources: for
    a snapshot name and a volume UUID it yields the snapshot, or nil
    with no error when none matches, or fails with an error.  It is a
    parameter. *)
Variable GetStorageVolumeSnapshots :
  restclient.RestClient -> string -> string ->
  option StorageVolumeSnapshotGetDataModelONTAP + utils.ClassifiedError.

(** The call of [interfaces.GetStorageVolumeSnapshots]: on failure the error
    has been reported inside.  Its own traffic is not recorded. *)
Definition callGetStorageVolumeSnapshots {S} (client : restclient.RestClient)
    (name volumeUUID : string)
  : M S (option StorageVolumeSnapshotGetDataModelONTAP + utils.ClassifiedError) :=
  match GetStorageVolumeSnapshots client name volumeUUID with
  | inl snapshot => mret (inl snapshot)
  | inr e =>
      e ← utils.MakeAndReportError (utils.summary e) (utils.detail e);
      mret (inr e)
  end.

(** [Read] refreshes the Terraform state with the latest data. *)
Definition StorageVolumeSnapshotDataSource_Read
    (d : StorageVolumeSnapshotDataSource) (req : ReadRequest)
  : M (option StorageVolumeSnapshotDataSourceModel) unit :=
  let data := tfsdk.GetValue (Config_ req) in
  appendDiagnostics (tfsdk.GetDiagnostics (Config_ req));;
  failed ← hasError;
  if failed : bool then mret tt else
  client ← getRestClient (config d) (CxProfileName data);
  match client with
  | inr _ => mret tt
  | inl client =>
  if types.IsNull (Name data) then
    utils.MakeAndReportError "error reading snapshot" "Snapshot name is null";;
    mret tt
  else if types.IsNull (VolumeUUID data) then
    utils.MakeAndReportError "error reading snapshot" "Volume UUID is null";;
    mret tt
  else
  snapshot ← callGetStorageVolumeSnapshots client
               (types.ValueString (Name data)) (types.ValueString (VolumeUUID data));
  match snapshot with
  | inr _ => mret tt
  | inl None =>
      utils.MakeAndReportError "No snapshot found"
        ("snapshot " +:+ types.ValueString (Name data) +:+ " not found.");;
      mret tt
  | inl (Some snapshot) =>
      size ← Float64Value (GetSize snapshot);
      let data :=
        mkSnapshotModel
          (CxProfileName data)
          (types.StringValue (GetCreateTime snapshot))
          (types.StringValue (GetComment snapshot))
          (types.StringValue (GetExpiryTime snapshot))
          (types.StringValue (GetName snapshot))
          size
          (types.StringValue (GetSnapmirrorLabel snapshot))
          (types.StringValue (GetState snapshot))
          (types.StringValue (VolUUID (GetVolume snapshot)))
          (types.StringValue (VolName (GetVolume snapshot))) in
      setState (Some data)
  end
  end.

End Read.

(** [NewStorageVolumeSnapshotDataSource] is a helper function to simplify the
    provider implementation. *)
Definition NewStorageVolumeSnapshotDataSource (providerConfig : Config)
  : StorageVolumeSnapshotDataSource :=
  mkSnapshotDataSource
    (mkResourceOrDataSourceConfig "storage_volume_snapshot_data_source" providerConfig).

(** [Metadata] returns the data source type name. *)
Definition StorageVolumeSnapshotDataSource_Metadata (d : StorageVolumeSnapshotDataSource)
    (ProviderTypeName : string) : string :=
  ProviderTypeName +:+ "_" +:+ name (config d).

(** [Configure] adds the provider configured client to the data source. *)
Definition StorageVolumeSnapshotDataSource_Configure {S} (zeroConfig : Config)
    (d : StorageVolumeSnapshotDataSource) (data : ProviderData)
  : M S StorageVolumeSnapshotDataSource :=
  match data with
  | ProviderDataNil => mret d
  | ProviderDataConfig c =>
      mret (mkSnapshotDataSource (mkResourceOrDataSourceConfig (name (config d)) c))
  | ProviderDataOther typeName =>
      addError "Unexpected Data Source Configure Type"
        ("Expected Config, got: " +:+ typeName
           +:+ ". Please report this issue to the provider developers.");;
      mret (mkSnapshotDataSource (mkResourceOrDataSourceConfig (name (config d)) zeroConfig))
  end.

End Snapshot.

End provider.

(** ** Reading the outcome of an operation *)

(** The diagnostic a classified error is reported as. *)
Definition reported (e : utils.ClassifiedError) : diag.Diagnostic :=
  diag.NewErrorDiagnostic (utils.summary e) (utils.detail e).

(** The error [GetIPRoute] makes of a read that failed with text [text] and
    status [statusCode] (line 56). *)
Definition GetIPRoute_failure (text : string) (statusCode : Z) : utils.ClassifiedError :=
  utils.mkClassifiedError "error reading /network/ip/routes info"
    ("error on GET /network/ip/routes: " +:+ text +:+ ", statusCode " +:+ fmt.d statusCode).

(** An operation "returns absence without an error": it ends with no record
    and no error, and the diagnostics hold no error. *)
Definition absentWithoutError {S A E} (out : Outcome (option A * option E) * World S) : Prop :=
  out.1 = Done (None, None) /\ diag.HasError (Diagnostics out.2) = false.

(** ** Sample data *)
Module sample.

(** A rendering for [%#v] where one has to be chosen. *)
Definition opaqueSyntax (A : Type) : fmt.GoSyntax A := fun _ => "{...}".

Definition idle {S} (s : S) : World S := mkWorld [] s [].

Definition v9_11 : interfaces.versionModelONTAP := interfaces.mkVersion 9 11 1.
Definition v9_8 : interfaces.versionModelONTAP := interfaces.mkVersion 9 8 0.

Definition created : restclient.RestResponse := restclient.mkRestResponse 0 [].

(** A client whose every read is answered with [read] and whose every
    write is answered with [write]. *)
Definition client (read : Z * option RawRecord * option error)
    (write : Z * restclient.RestResponse * option error) : restclient.RestClient :=
  restclient.mkRestClient (fun _ _ _ => read) (fun _ _ _ => write) (fun _ _ _ => write).

(** A cluster on which every read matches [records], read through the
    cardinality resolver. *)
Definition cluster (records : list RawRecord) : restclient.RestClient :=
  restclient.resolvingClient
    (fun _ _ => (200%Z, records, None))
    (fun _ _ _ => (201%Z, created, None))
    (fun _ _ _ => (200%Z, created, None)).

Definition noRecord : restclient.RestClient := client (200%Z, None, None) (200%Z, created, None).

(** A client whose every call fails with [err] and status [statusCode]. *)
Definition failing (statusCode : Z) (err : error) : restclient.RestClient :=
  client (statusCode, None, Some err) (statusCode, created, Some err).

Definition route : interfaces.IPRouteGetDataModelONTAP :=
  interfaces.mkIPRouteGet (interfaces.mkDestination "10.0.0.0" "24")
    "1cd8a442-86d1-11e0-ae1c-123478563412" "10.1.1.1" 20 (interfaces.mkVserver "svm1").

Definition routeBody : interfaces.IPRouteResourceBodyDataModelONTAP :=
  interfaces.Body.mkIPRouteBody (interfaces.mkDestination "10.0.0.0" "24")
    (interfaces.mkVserver "svm1") "10.1.1.1" 20.

Definition model (uuid : types.String) : provider.IPRouteResourceModel :=
  provider.mkIPRouteResourceModel (types.StringValue "cluster1") (types.StringValue "svm1")
    (Some (provider.mkDestinationModel (types.StringValue "10.0.0.0") (types.StringValue "24")))
    (types.StringValue "10.9.9.9") (types.Int64Value 5) uuid.

Definition resource (client : restclient.RestClient) : provider.IPRouteResource :=
  provider.NewIPRouteResource (provider.mkConfig (fun _ => inl client)).

Definition noProfile : provider.IPRouteResource :=
  provider.NewIPRouteResource (provider.mkConfig (fun profile =>
    inr (utils.mkClassifiedError "connection profile not found" profile))).

Definition snapshotModel : provider.Snapshot.StorageVolumeSnapshotDataSourceModel :=
  provider.Snapshot.mkSnapshotModel (types.StringValue "cluster1")
    types.StringNull types.StringNull types.StringNull (types.StringValue "snap1")
    types.Float64Null types.StringNull types.StringNull
    (types.StringValue "7b0f1d2a") types.StringNull.

Definition snapshots (client : restclient.RestClient)
  : provider.Snapshot.StorageVolumeSnapshotDataSource :=
  provider.Snapshot.mkSnapshotDataSource
    (provider.mkResourceOrDataSourceConfig "storage_volume_snapshot_data_source"
       (provider.mkConfig (fun _ => inl client))).

(** A record whose gateway is not a string. *)
Definition malformed : RawRecord :=
  <["gateway" := RawInt 7]> (<["uuid" := RawString "1cd8a442"]> ∅).

(** A client whose every write is answered with status 201 and [records]. *)
Definition creating (records : list RawRecord) : restclient.RestClient :=
  client (200%Z, None, None)
    (201%Z, restclient.mkRestResponse (Z.of_nat (length records)) records, None).

Definition request (data : provider.IPRouteResourceModel)
  : tfsdk.Data provider.IPRouteResourceModel :=
  tfsdk.mkData [] data.

Definition snapshot : provider.Snapshot.StorageVolumeSnapshotGetDataModelONTAP :=
  provider.Snapshot.mkSnapshotGet "2019-02-04T19:00:00Z" "nightly" "2021-06-04T19:00:00Z"
    "snap1" 0%float "mirror" "valid" (provider.Snapshot.mkNameDataModel "vol1" "7b0f1d2a").

(** A plan that leaves gateway and metric unset; the UUID is not known yet. *)
Definition plan : provider.IPRouteResourceModel :=
  provider.mkIPRouteResourceModel (types.StringValue "cluster1") (types.StringValue "svm1")
    (Some (provider.mkDestinationModel (types.StringValue "10.0.0.0") (types.StringValue "24")))
    types.StringNull types.Int64Null types.StringUnknown.

Definition noConfig : provider.Config :=
  provider.mkConfig (fun _ => inr (utils.mkClassifiedError "provider not configured" "")).

End sample.

(** * Properties *)

#[global] Arguments diag.HasError : simpl never.

(** Runs the monadic plumbing of an operation. *)
Ltac run :=
  unfold mbind, mret, M_bind, M_ret, send, addError, diag.AddError, panic, hasError,
    setState, appendDiagnostics; cbn.

Ltac run_in H :=
  unfold mbind, mret, M_bind, M_ret, send, addError, diag.AddError, panic, hasError,
    setState, appendDiagnostics in H; cbn in H.

(** ** Strings *)


Lemma append_assoc (s t u : string) : (s +:+ t) +:+ u = s +:+ t +:+ u.
Proof.
  induction s as [|c s IH]; [reflexivity |].
  change (String c ((s +:+ t) +:+ u) = String c (s +:+ t +:+ u)). by rewrite IH.
Qed.


Lemma contains_prefix (s post : string) : contains (s +:+ post) s.
Proof. by exists "", post. Qed.

Lemma contains_app_r (pre s sub : string) : contains s sub -> contains (pre +:+ s) sub.
Proof.
  intros (p & q & ->). exists (pre +:+ p), q. by rewrite append_assoc.
Qed.

(** ** Diagnostics *)

Lemma HasError_app (ds more : diag.Diagnostics) :
  diag.HasError (ds ++ more) = diag.HasError ds || diag.HasError more.
Proof. apply existsb_app. Qed.

Lemma HasError_reported (ds : diag.Diagnostics) (summary detail : string) :
  diag.HasError (ds ++ [diag.NewErrorDiagnostic summary detail]) = true.
Proof. rewrite HasError_app. cbn. apply orb_true_r. Qed.

(** ** The cases of [GetIPRoute] *)
Section GetIPRoute_cases.

Context {S : Type} {rawSyntax : fmt.GoSyntax RawRecord}.
Variables (r : restclient.RestClient) (Destination svmName : string).
Variable version : interfaces.versionModelONTAP.
Variable w : World S.

Let api := "/network/ip/routes".
Let query := interfaces.GetIPRoute_query Destination svmName version.
Let sent := Calls w ++ [restclient.mkCall restclient.GET api (Some query) None].

Lemma GetIPRoute_sends :
  Calls (interfaces.GetIPRoute r Destination svmName version w).2 = sent.
Proof.
  unfold interfaces.GetIPRoute, GetNilOrOneRecord, utils.MakeAndReportError. run.
  destruct (restclient.GetNilOrOneRecord r _ _ _) as [[sc resp] err].
  destruct err, resp; cbn; try reflexivity.
  all: destruct (interfaces.decodeIPRouteGet _); reflexivity.
Qed.

Lemma GetIPRoute_transport_error statusCode response err :
  restclient.GetNilOrOneRecord r api query None = (statusCode, response, Some err) ->
  interfaces.GetIPRoute r Destination svmName version w =
    (Done (None, Some (GetIPRoute_failure err statusCode)),
     mkWorld (Diagnostics w ++ [reported (GetIPRoute_failure err statusCode)]) (State w) sent).
Proof.
  intros Hget. unfold interfaces.GetIPRoute, GetNilOrOneRecord, utils.MakeAndReportError.
  run. fold api query. rewrite Hget. reflexivity.
Qed.

Lemma GetIPRoute_no_record statusCode :
  restclient.GetNilOrOneRecord r api query None = (statusCode, None, None) ->
  interfaces.GetIPRoute r Destination svmName version w =
    (Done (None, Some (GetIPRoute_failure "no response for GET /network/ip/routes" statusCode)),
     mkWorld
       (Diagnostics w ++
          [reported (GetIPRoute_failure "no response for GET /network/ip/routes" statusCode)])
       (State w) sent).
Proof.
  intros Hget. unfold interfaces.GetIPRoute, GetNilOrOneRecord, utils.MakeAndReportError.
  run. fold api query. rewrite Hget. reflexivity.
Qed.

Lemma GetIPRoute_one_record statusCode record dataONTAP :
  restclient.GetNilOrOneRecord r api query None = (statusCode, Some record, None) ->
  interfaces.decodeIPRouteGet record = inr dataONTAP ->
  interfaces.GetIPRoute r Destination svmName version w =
    (Done (Some dataONTAP, None), mkWorld (Diagnostics w) (State w) sent).
Proof.
  intros Hget Hdec. unfold interfaces.GetIPRoute, GetNilOrOneRecord, utils.MakeAndReportError.
  run. fold api query. rewrite Hget. cbn. rewrite Hdec. reflexivity.
Qed.

(** Whatever the transport answers, a record comes back only decoded from a
    single record of the answer, and an error comes back only reported. *)
Lemma GetIPRoute_inv restInfo err w' :
  interfaces.GetIPRoute r Destination svmName version w = (Done (restInfo, err), w') ->
  (exists statusCode record dataONTAP,
      restclient.GetNilOrOneRecord r api query None = (statusCode, Some record, None) /\
      interfaces.decodeIPRouteGet record = inr dataONTAP /\
      restInfo = Some dataONTAP /\ err = None /\
      w' = mkWorld (Diagnostics w) (State w) sent) \/
  (exists e, restInfo = None /\ err = Some e /\
      w' = mkWorld (Diagnostics w ++ [reported e]) (State w) sent).
Proof.
  unfold interfaces.GetIPRoute, GetNilOrOneRecord, utils.MakeAndReportError.
  run. fold api query.
  destruct (restclient.GetNilOrOneRecord r api query None) as [[sc resp] e] eqn:Hget.
  destruct e as [e|], resp as [record|]; cbn.
  - intros [= <- <- <-]. right. eauto.
  - intros [= <- <- <-]. right. eauto.
  - destruct (interfaces.decodeIPRouteGet record) as [e|dataONTAP] eqn:Hdec.
    + intros [= <- <- <-]. right. eauto.
    + intros [= <- <- <-]. left. exists sc, record, dataONTAP. auto.
  - intros [= <- <- <-]. right. eauto.
Qed.

End GetIPRoute_cases.

(** ** The query of a read *)

Example projection_9_11 :
  restclient.Projection (interfaces.GetIPRoute_query "10.0.0.0/24" "" sample.v9_11)
  = ["destination"; "svm.name"; "gateway"; "scope"; "metric"].
Proof. reflexivity. Qed.

Example projection_9_8 :
  restclient.Projection (interfaces.GetIPRoute_query "10.0.0.0/24" "" sample.v9_8)
  = ["destination"; "svm.name"; "gateway"; "scope"].
Proof. reflexivity. Qed.

(** C3. For every version triple, [GetIPRoute] puts one read on the wire, and
    the field-projection list of its query holds the version-gated field
    "metric" exactly once if and only if generation = 9 and major > 10: it is
    then the base fields followed by "metric", and otherwise exactly the base
    fields "destination", "svm.name", "gateway", "scope". *)
Theorem GetIPRoute_projection_gated_by_version {S} {rawSyntax : fmt.GoSyntax RawRecord}
    (r : restclient.RestClient) (Destination svmName : string)
    (version : interfaces.versionModelONTAP) (w : World S) :
  exists q : restclient.RestQuery,
    Calls (interfaces.GetIPRoute r Destination svmName version w).2
      = Calls w ++ [restclient.mkCall restclient.GET "/network/ip/routes" (Some q) None] /\
    (count_occ String.string_dec (restclient.Projection q) "metric" = 1
       <-> (interfaces.Generation version = 9 /\ interfaces.Major version > 10)%Z) /\
    ((interfaces.Generation version = 9 /\ interfaces.Major version > 10)%Z ->
       restclient.Projection q = ["destination"; "svm.name"; "gateway"; "scope"; "metric"]) /\
    (~ (interfaces.Generation version = 9 /\ interfaces.Major version > 10)%Z ->
       restclient.Projection q = ["destination"; "svm.name"; "gateway"; "scope"]).
Proof.
  exists (interfaces.GetIPRoute_query Destination svmName version).
  split; [apply GetIPRoute_sends |].
  unfold interfaces.GetIPRoute_query. cbn.
  destruct (decide (interfaces.Generation version = 9 ∧ interfaces.Major version > 10)%Z)
    as [Hyes | Hno]; cbn.
  - split; [split; [intros _; exact Hyes | intros _; reflexivity] |].
    split; [intros _; reflexivity | intros Hno; by destruct Hno].
  - split; [split; [intros [=] | intros Hyes; by destruct Hno] |].
    split; [intros Hyes; by destruct Hno | intros _; reflexivity].
Qed.

Lemma GetIPRoute_projection_gated_by_version_witness :
  (exists q : restclient.RestQuery,
      Calls (interfaces.GetIPRoute (rawSyntax := sample.opaqueSyntax _)
               sample.noRecord "10.0.0.0/24" "" sample.v9_11 (sample.idle tt)).2
        = [restclient.mkCall restclient.GET "/network/ip/routes" (Some q) None] /\
      restclient.Projection q = ["destination"; "svm.name"; "gateway"; "scope"; "metric"])
  /\
  (exists q : restclient.RestQuery,
      Calls (interfaces.GetIPRoute (rawSyntax := sample.opaqueSyntax _)
               sample.noRecord "10.0.0.0/24" "" sample.v9_8 (sample.idle tt)).2
        = [restclient.mkCall restclient.GET "/network/ip/routes" (Some q) None] /\
      restclient.Projection q = ["destination"; "svm.name"; "gateway"; "scope"]).
Proof.
  split.
  - destruct (GetIPRoute_projection_gated_by_version (rawSyntax := sample.opaqueSyntax _)
                sample.noRecord "10.0.0.0/24" "" sample.v9_11 (sample.idle tt))
      as (q & Hsent & _ & Hyes & _).
    exists q. split; [exact Hsent | apply Hyes; cbn; lia].
  - destruct (GetIPRoute_projection_gated_by_version (rawSyntax := sample.opaqueSyntax _)
                sample.noRecord "10.0.0.0/24" "" sample.v9_8 (sample.idle tt))
      as (q & Hsent & _ & _ & Hno).
    exists q. split; [exact Hsent | apply Hno; cbn; lia].
Defined.

(** C7. For every [GetIPRoute] call, the query of the one read it puts on the
    wire sets "destination.address" to the given destination; with no owning
    virtual server (the empty name) it carries scope = "cluster" and no
    "svm.name" filter; with a virtual server name it carries "svm.name" set to
    that name and scope = "svm". *)
Theorem GetIPRoute_query_destination_and_scope {S} {rawSyntax : fmt.GoSyntax RawRecord}
    (r : restclient.RestClient) (Destination svmName : string)
    (version : interfaces.versionModelONTAP) (w : World S) :
  exists q : restclient.RestQuery,
    Calls (interfaces.GetIPRoute r Destination svmName version w).2
      = Calls w ++ [restclient.mkCall restclient.GET "/network/ip/routes" (Some q) None] /\
    restclient.Values q !! "destination.address" = Some [Destination] /\
    (svmName = "" ->
       restclient.Values q !! "scope" = Some ["cluster"] /\
       restclient.Values q !! "svm.name" = None) /\
    (svmName <> "" ->
       restclient.Values q !! "svm.name" = Some [svmName] /\
       restclient.Values q !! "scope" = Some ["svm"]).
Proof.
  exists (interfaces.GetIPRoute_query Destination svmName version).
  split; [apply GetIPRoute_sends |].
  unfold interfaces.GetIPRoute_query, restclient.Fields, restclient.Set_, restclient.emptyQuery.
  destruct (decide (svmName = "")) as [Hnone | Hsome]; cbn.
  - repeat split; intros; try done.
  - repeat split; intros; try done.
Qed.

Lemma GetIPRoute_query_destination_and_scope_witness :
  (exists q : restclient.RestQuery,
      Calls (interfaces.GetIPRoute (rawSyntax := sample.opaqueSyntax _)
               sample.noRecord "10.0.0.0/24" "" sample.v9_11 (sample.idle tt)).2
        = [restclient.mkCall restclient.GET "/network/ip/routes" (Some q) None] /\
      restclient.Values q !! "destination.address" = Some ["10.0.0.0/24"] /\
      restclient.Values q !! "scope" = Some ["cluster"] /\
      restclient.Values q !! "svm.name" = None)
  /\
  (exists q : restclient.RestQuery,
      Calls (interfaces.GetIPRoute (rawSyntax := sample.opaqueSyntax _)
               sample.noRecord "10.0.0.0/24" "svm1" sample.v9_11 (sample.idle tt)).2
        = [restclient.mkCall restclient.GET "/network/ip/routes" (Some q) None] /\
      restclient.Values q !! "destination.address" = Some ["10.0.0.0/24"] /\
      restclient.Values q !! "svm.name" = Some ["svm1"] /\
      restclient.Values q !! "scope" = Some ["svm"]).
Proof.
  split.
  - destruct (GetIPRoute_query_destination_and_scope (rawSyntax := sample.opaqueSyntax _)
                sample.noRecord "10.0.0.0/24" "" sample.v9_11 (sample.idle tt))
      as (q & Hsent & Hdest & Hcluster & _).
    exists q. repeat split; [exact Hsent | exact Hdest | by apply Hcluster | by apply Hcluster].
  - destruct (GetIPRoute_query_destination_and_scope (rawSyntax := sample.opaqueSyntax _)
                sample.noRecord "10.0.0.0/24" "svm1" sample.v9_11 (sample.idle tt))
      as (q & Hsent & Hdest & _ & Hsvm).
    exists q. repeat split; [exact Hsent | exact Hdest | by apply Hsvm | by apply Hsvm].
Defined.

(** ** Reads that match no record *)

Example GetIPRoute_noRecord :
  interfaces.GetIPRoute (rawSyntax := sample.opaqueSyntax _) sample.noRecord "10.0.0.0/24" "" sample.v9_11 (sample.idle tt)
  = (Done (None,
           Some (utils.mkClassifiedError "error reading /network/ip/routes info"
                   "error on GET /network/ip/routes: no response for GET /network/ip/routes, statusCode 200")),
     mkWorld
       [diag.NewErrorDiagnostic "error reading /network/ip/routes info"
          "error on GET /network/ip/routes: no response for GET /network/ip/routes, statusCode 200"]
       tt
       [restclient.mkCall restclient.GET "/network/ip/routes"
          (Some (interfaces.GetIPRoute_query "10.0.0.0/24" "" sample.v9_11)) None]).
Proof. reflexivity. Qed.

Lemma snapshot_Read_no_snapshot
    (GetStorageVolumeSnapshots :
       restclient.RestClient -> string -> string ->
       option provider.Snapshot.StorageVolumeSnapshotGetDataModelONTAP + utils.ClassifiedError)
    (d : provider.Snapshot.StorageVolumeSnapshotDataSource)
    (req : provider.Snapshot.ReadRequest)
    (w : World (option provider.Snapshot.StorageVolumeSnapshotDataSourceModel))
    (client : restclient.RestClient) :
  let data := tfsdk.GetValue (provider.Snapshot.Config_ req) in
  let diags := Diagnostics w ++ tfsdk.GetDiagnostics (provider.Snapshot.Config_ req) in
  diag.HasError diags = false ->
  provider.NewClient (provider.providerConfig (provider.Snapshot.config d))
    (types.ValueString (provider.Snapshot.CxProfileName data)) = inl client ->
  types.IsNull (provider.Snapshot.Name data) = false ->
  types.IsNull (provider.Snapshot.VolumeUUID data) = false ->
  GetStorageVolumeSnapshots client (types.ValueString (provider.Snapshot.Name data))
    (types.ValueString (provider.Snapshot.VolumeUUID data)) = inl None ->
  provider.Snapshot.StorageVolumeSnapshotDataSource_Read GetStorageVolumeSnapshots d req w
  = (Done tt,
     mkWorld
       (diags ++ [diag.NewErrorDiagnostic "No snapshot found"
                    ("snapshot " +:+ types.ValueString (provider.Snapshot.Name data)
                       +:+ " not found.")])
       (State w) (Calls w)).
Proof.
  intros data diags Hok Hclient Hname Hvolume Hnone. subst data diags.
  unfold provider.Snapshot.StorageVolumeSnapshotDataSource_Read, provider.getRestClient,
    provider.Snapshot.callGetStorageVolumeSnapshots, utils.MakeAndReportError.
  run. unfold diag.Append. rewrite Hok, Hclient. cbn.
  rewrite Hname, Hvolume. cbn. rewrite Hnone. reflexivity.
Qed.

(** C1, as the code has it. A read that matches no record is reported as an
    error.  When the client's nil-or-one read answers with no record and no
    error, [GetIPRoute] returns no record together with the error
    "error reading /network/ip/routes info" / "error on GET
    /network/ip/routes: no response for GET /network/ip/routes, statusCode
    <code>", which it has reported.  When [GetStorageVolumeSnapshots] yields
    no snapshot and no error, the snapshot data source's [Read] reports "No
    snapshot found" / "snapshot <name> not found." and leaves the state as it
    was. *)
Theorem absence_is_reported_as_error :
  (forall (S : Type) (H : fmt.GoSyntax RawRecord) (r : restclient.RestClient)
          (Destination svmName : string) (version : interfaces.versionModelONTAP)
          (w : World S) (statusCode : Z),
      restclient.GetNilOrOneRecord r "/network/ip/routes"
        (interfaces.GetIPRoute_query Destination svmName version) None
        = (statusCode, None, None) ->
      let e := GetIPRoute_failure "no response for GET /network/ip/routes" statusCode in
      interfaces.GetIPRoute r Destination svmName version w
      = (Done (None, Some e),
         mkWorld (Diagnostics w ++ [reported e]) (State w)
           (Calls w ++ [restclient.mkCall restclient.GET "/network/ip/routes"
                          (Some (interfaces.GetIPRoute_query Destination svmName version))
                          None])))
  /\
  (forall GetStorageVolumeSnapshots d req w client,
      let data := tfsdk.GetValue (provider.Snapshot.Config_ req) in
      let diags := Diagnostics w ++ tfsdk.GetDiagnostics (provider.Snapshot.Config_ req) in
      diag.HasError diags = false ->
      provider.NewClient (provider.providerConfig (provider.Snapshot.config d))
        (types.ValueString (provider.Snapshot.CxProfileName data)) = inl client ->
      types.IsNull (provider.Snapshot.Name data) = false ->
      types.IsNull (provider.Snapshot.VolumeUUID data) = false ->
      GetStorageVolumeSnapshots client (types.ValueString (provider.Snapshot.Name data))
        (types.ValueString (provider.Snapshot.VolumeUUID data)) = inl None ->
      provider.Snapshot.StorageVolumeSnapshotDataSource_Read GetStorageVolumeSnapshots d req w
      = (Done tt,
         mkWorld
           (diags ++ [diag.NewErrorDiagnostic "No snapshot found"
                        ("snapshot " +:+ types.ValueString (provider.Snapshot.Name data)
                           +:+ " not found.")])
           (State w) (Calls w))).
Proof.
  split.
  - intros S H r Destination svmName version w statusCode Hget e.
    by apply GetIPRoute_no_record.
  - intros G d req w client data diags Hok Hclient Hname Hvolume Hnone.
    by apply (snapshot_Read_no_snapshot G d req w client).
Qed.

Lemma absence_is_reported_as_error_witness :
  interfaces.GetIPRoute (rawSyntax := sample.opaqueSyntax _) sample.noRecord "10.0.0.0/24" ""
    sample.v9_11 (sample.idle tt)
  = (Done (None, Some (GetIPRoute_failure "no response for GET /network/ip/routes" 200)),
     mkWorld [reported (GetIPRoute_failure "no response for GET /network/ip/routes" 200)] tt
       [restclient.mkCall restclient.GET "/network/ip/routes"
          (Some (interfaces.GetIPRoute_query "10.0.0.0/24" "" sample.v9_11)) None])
  /\
  provider.Snapshot.StorageVolumeSnapshotDataSource_Read (fun _ _ _ => inl None)
    (sample.snapshots sample.noRecord)
    (provider.Snapshot.mkReadRequest (tfsdk.mkData [] sample.snapshotModel))
    (sample.idle None)
  = (Done tt,
     mkWorld [diag.NewErrorDiagnostic "No snapshot found" "snapshot snap1 not found."] None []).
Proof.
  split.
  - apply (proj1 absence_is_reported_as_error unit (sample.opaqueSyntax _) sample.noRecord
             "10.0.0.0/24" "" sample.v9_11 (sample.idle tt) 200%Z).
    reflexivity.
  - apply (proj2 absence_is_reported_as_error (fun _ _ _ => inl None)
             (sample.snapshots sample.noRecord)
             (provider.Snapshot.mkReadRequest (tfsdk.mkData [] sample.snapshotModel))
             (sample.idle None) sample.noRecord); reflexivity.
Defined.

(** C1, as the specification states it, fails: on a client whose read matches
    no record [GetIPRoute] does not return absence without an error, and the
    snapshot data source's [Read] ends with an error in the diagnostics. *)
Lemma absence_without_error_counterexample :
  ~ absentWithoutError
      (interfaces.GetIPRoute (rawSyntax := sample.opaqueSyntax _) sample.noRecord "10.0.0.0/24" ""
         sample.v9_11 (sample.idle tt))
  /\
  diag.HasError
    (Diagnostics
       (provider.Snapshot.StorageVolumeSnapshotDataSource_Read (fun _ _ _ => inl None)
          (sample.snapshots sample.noRecord)
          (provider.Snapshot.mkReadRequest (tfsdk.mkData [] sample.snapshotModel))
          (sample.idle None)).2)
  = true.
Proof.
  split.
  - intros [Hout _]. vm_compute in Hout. discriminate Hout.
  - reflexivity.
Qed.

(** ** Writes *)

Section Write_cases.

Context {S : Type} {responseSyntax : fmt.GoSyntax restclient.RestResponse}
        {bodySyntax : fmt.GoSyntax interfaces.IPRouteResourceBodyDataModelONTAP}.
Variable r : restclient.RestClient.
Variable w : World S.

Let api := "/network/ip/routes".
Let query := restclient.Add restclient.emptyQuery "return_records" "true".



Lemma DeleteIPRoute_sends uuid :
  Calls (interfaces.DeleteIPRoute r uuid w).2
  = Calls w ++ [restclient.mkCall restclient.DELETE (api +:+ "/" +:+ uuid) None None].
Proof.
  unfold interfaces.DeleteIPRoute, CallDeleteMethod, utils.MakeAndReportError. run.
  destruct (restclient.CallDeleteMethod r _ None None) as [[sc resp] [err|]]; reflexivity.
Qed.

End Write_cases.


Example GetIPRoute_failing_detail :
  interfaces.GetIPRoute (rawSyntax := sample.opaqueSyntax _) (sample.failing 503 "connection refused")
    "10.0.0.0/24" "svm1" sample.v9_8 (sample.idle tt)
  = (Done (None,
           Some (utils.mkClassifiedError "error reading /network/ip/routes info"
                   "error on GET /network/ip/routes: connection refused, statusCode 503")),
     mkWorld
       [diag.NewErrorDiagnostic "error reading /network/ip/routes info"
          "error on GET /network/ip/routes: connection refused, statusCode 503"]
       tt
       [restclient.mkCall restclient.GET "/network/ip/routes"
          (Some (interfaces.GetIPRoute_query "10.0.0.0/24" "svm1" sample.v9_8)) None]).
Proof. reflexivity. Qed.

(** The detail of a failed delete names the collection path, which is the
    path of the request without its last segment. *)
Example DeleteIPRoute_failing_detail :
  interfaces.DeleteIPRoute (sample.failing 404 "entry doesn't exist") "1cd8a442" (sample.idle tt)
  = (Done (Some (utils.mkClassifiedError "error deleting /network/ip/routes"
                   "error on DELETE /network/ip/routes: entry doesn't exist, statusCode 404")),
     mkWorld
       [diag.NewErrorDiagnostic "error deleting /network/ip/routes"
          "error on DELETE /network/ip/routes: entry doesn't exist, statusCode 404"]
       tt
       [restclient.mkCall restclient.DELETE "/network/ip/routes/1cd8a442" None None]).
Proof. reflexivity. Qed.







(** C2, what the code does. When the transport reports success for the
    create and the reply holds an empty record list, [CreateIPRoute] indexes
    the list unguarded: it ends in the run-time panic "index out of range [0]
    with length 0", with the request already on the wire and nothing handed
    to the error handler. *)
Theorem CreateIPRoute_empty_record_list_panics {S}
    {responseSyntax : fmt.GoSyntax restclient.RestResponse}
    {bodySyntax : fmt.GoSyntax interfaces.IPRouteResourceBodyDataModelONTAP}
    (r : restclient.RestClient) (w : World S)
    (body : interfaces.IPRouteResourceBodyDataModelONTAP) (bodyMap : RawRecord)
    (statusCode : Z) (response : restclient.RestResponse) :
  interfaces.encodeIPRouteBody body = inr bodyMap ->
  restclient.CallCreateMethod r "/network/ip/routes"
    (restclient.Add restclient.emptyQuery "return_records" "true") bodyMap
    = (statusCode, response, None) ->
  restclient.Records response = [] ->
  interfaces.CreateIPRoute r body w
  = (Panic "runtime error: index out of range [0] with length 0",
     mkWorld (Diagnostics w) (State w)
       (Calls w ++ [restclient.mkCall restclient.POST "/network/ip/routes"
                      (Some (restclient.Add restclient.emptyQuery "return_records" "true"))
                      (Some bodyMap)])).
Proof.
  intros Henc Hpost Hnone.
  unfold interfaces.CreateIPRoute, CallCreateMethod, utils.MakeAndReportError.
  rewrite Henc. run. rewrite Hpost. cbn. rewrite Hnone. reflexivity.
Qed.

Lemma CreateIPRoute_empty_record_list_panics_witness :
  (interfaces.CreateIPRoute (responseSyntax := sample.opaqueSyntax _) (bodySyntax := sample.opaqueSyntax _)
     (sample.cluster []) sample.routeBody (sample.idle tt)).1
  = Panic "runtime error: index out of range [0] with length 0".
Proof.
  destruct (interfaces.encodeIPRouteBody sample.routeBody) as [e | bodyMap] eqn:Henc;
    [discriminate Henc |].
  rewrite (CreateIPRoute_empty_record_list_panics (responseSyntax := sample.opaqueSyntax _)
             (bodySyntax := sample.opaqueSyntax _) (sample.cluster []) (sample.idle tt)
             sample.routeBody bodyMap 201%Z sample.created Henc);
    reflexivity.
Defined.

(** ** Reads that match several records *)

(** C5. For every [GetIPRoute] whose read, resolved by the cardinality
    resolver, matched more than one record, the operation returns no record
    (none of the records returned is picked) and fails with the classified
    error "error reading /network/ip/routes info", which it has reported and
    whose detail carries the resolver's AmbiguousResult error. *)
Theorem GetIPRoute_ambiguous_result {S} {rawSyntax : fmt.GoSyntax RawRecord}
    (get : string -> restclient.RestQuery -> Z * list RawRecord * option error)
    create delete (Destination svmName : string)
    (version : interfaces.versionModelONTAP) (w : World S)
    (statusCode : Z) (records : list RawRecord) :
  get "/network/ip/routes" (interfaces.GetIPRoute_query Destination svmName version)
    = (statusCode, records, None) ->
  1 < length records ->
  exists e w',
    interfaces.GetIPRoute (restclient.resolvingClient get create delete)
      Destination svmName version w = (Done (None, Some e), w') /\
    Diagnostics w' = Diagnostics w ++ [reported e] /\
    utils.summary e = "error reading /network/ip/routes info" /\
    contains (utils.detail e) (restclient.AmbiguousResultError (length records)).
Proof.
  intros Hget Hmany.
  exists (GetIPRoute_failure (restclient.AmbiguousResultError (length records)) statusCode).
  eexists. split.
  - apply (GetIPRoute_transport_error _ _ _ _ _ statusCode None).
    cbn. rewrite Hget.
    destruct records as [|first [|second rest]]; cbn in Hmany; [lia | lia | reflexivity].
  - split; [reflexivity |]. split; [reflexivity |].
    apply (contains_app_r "error on GET /network/ip/routes: "). apply contains_prefix.
Qed.

Lemma GetIPRoute_ambiguous_result_witness :
  exists e w',
    interfaces.GetIPRoute (rawSyntax := sample.opaqueSyntax _)
      (sample.cluster [interfaces.encodeIPRouteGet sample.route;
                       interfaces.encodeIPRouteGet sample.route])
      "10.0.0.0" "svm1" sample.v9_11 (sample.idle tt) = (Done (None, Some e), w') /\
    Diagnostics w' = [reported e] /\
    utils.summary e = "error reading /network/ip/routes info" /\
    contains (utils.detail e) (restclient.AmbiguousResultError 2).
Proof.
  apply (GetIPRoute_ambiguous_result (rawSyntax := sample.opaqueSyntax _)
           (fun _ _ => (200%Z, [interfaces.encodeIPRouteGet sample.route;
                                interfaces.encodeIPRouteGet sample.route], None))
           (fun _ _ _ => (201%Z, sample.created, None))
           (fun _ _ _ => (200%Z, sample.created, None))
           "10.0.0.0" "svm1" sample.v9_11 (sample.idle tt) 200%Z
           [interfaces.encodeIPRouteGet sample.route; interfaces.encodeIPRouteGet sample.route]).
  - reflexivity.
  - cbn. lia.
Defined.

(** ** Decoding *)

Lemma decode_encode_Destination (x : interfaces.DestinationDataSourceModel) (name : string) :
  interfaces.decodeDestination name (RawMap (interfaces.encodeDestination x)) = inr x.
Proof. destruct x. reflexivity. Qed.

Lemma decode_encode_Vserver (x : interfaces.Vserver) (name : string) :
  interfaces.decodeVserver name (RawMap (interfaces.encodeVserver x)) = inr x.
Proof. destruct x. reflexivity. Qed.

Lemma decode_encode_IPRouteGet (x : interfaces.IPRouteGetDataModelONTAP) :
  interfaces.decodeIPRouteGet (interfaces.encodeIPRouteGet x) = inr x.
Proof.
  destruct x as [[address netmask] uuid gateway metric [name]]. reflexivity.
Qed.

Lemma decode_encode_IPRouteBody (body : interfaces.IPRouteResourceBodyDataModelONTAP)
    (bodyMap : RawRecord) :
  interfaces.encodeIPRouteBody body = inr bodyMap ->
  interfaces.decodeIPRouteGet bodyMap
  = inr (interfaces.mkIPRouteGet (interfaces.Body.Destination body) ""
           (interfaces.Body.Gateway body) (interfaces.Body.Metric body)
           (interfaces.Body.SVM body)).
Proof.
  intros [= <-]. destruct body as [[address netmask] [name] gateway metric]. reflexivity.
Qed.

Example decode_raw_payload :
  interfaces.decodeIPRouteGet
    (<["destination" := RawMap (<["address" := RawString "10.0.0.0"]>
                                 (<["netmask" := RawString "24"]> ∅))]>
       (<["gateway" := RawString "10.1.1.1"]>
          (<["metric" := RawInt 20]>
             (<["scope" := RawString "cluster"]> ∅))))
  = inr (interfaces.mkIPRouteGet (interfaces.mkDestination "10.0.0.0" "24") ""
           "10.1.1.1" 20 (interfaces.mkVserver "")).
Proof. reflexivity. Qed.

Example decode_type_mismatch :
  interfaces.decodeIPRouteGet (<["gateway" := RawInt 7]> ∅)
  = inl "'gateway' expected type 'string', got unconvertible type 'int64'".
Proof. reflexivity. Qed.

(** C6. For every IP route record, encoding it to the raw nested key/value
    form and decoding that raw form through the response decoder yields the
    record itself; the body that [CreateIPRoute] encodes decodes to the route
    with the same destination, gateway, metric and virtual server (and no
    identifier, which a body does not carry); and a [GetIPRoute] whose read
    matches exactly one record, the raw form of a route, returns that route
    and no error, reporting nothing. *)
Theorem decode_is_left_inverse_of_encode :
  (forall x : interfaces.IPRouteGetDataModelONTAP,
      interfaces.decodeIPRouteGet (interfaces.encodeIPRouteGet x) = inr x)
  /\
  (forall (body : interfaces.IPRouteResourceBodyDataModelONTAP) (bodyMap : RawRecord),
      interfaces.encodeIPRouteBody body = inr bodyMap ->
      interfaces.decodeIPRouteGet bodyMap
      = inr (interfaces.mkIPRouteGet (interfaces.Body.Destination body) ""
               (interfaces.Body.Gateway body) (interfaces.Body.Metric body)
               (interfaces.Body.SVM body)))
  /\
  (forall (S : Type) (rawSyntax : fmt.GoSyntax RawRecord) (r : restclient.RestClient)
          (Destination svmName : string) (version : interfaces.versionModelONTAP)
          (w : World S) (statusCode : Z) (x : interfaces.IPRouteGetDataModelONTAP),
      restclient.GetNilOrOneRecord r "/network/ip/routes"
        (interfaces.GetIPRoute_query Destination svmName version) None
        = (statusCode, Some (interfaces.encodeIPRouteGet x), None) ->
      interfaces.GetIPRoute r Destination svmName version w
      = (Done (Some x, None),
         mkWorld (Diagnostics w) (State w)
           (Calls w ++ [restclient.mkCall restclient.GET "/network/ip/routes"
                          (Some (interfaces.GetIPRoute_query Destination svmName version))
                          None]))).
Proof.
  split; [exact decode_encode_IPRouteGet |]. split; [exact decode_encode_IPRouteBody |].
  intros S rawSyntax r Destination svmName version w statusCode x Hget.
  eapply GetIPRoute_one_record; [exact Hget | apply decode_encode_IPRouteGet].
Qed.

Lemma decode_is_left_inverse_of_encode_witness :
  mapstructure.andThen (interfaces.encodeIPRouteBody sample.routeBody)
    interfaces.decodeIPRouteGet
  = inr (interfaces.mkIPRouteGet (interfaces.mkDestination "10.0.0.0" "24") ""
           "10.1.1.1" 20 (interfaces.mkVserver "svm1"))
  /\
  interfaces.GetIPRoute (rawSyntax := sample.opaqueSyntax _)
    (sample.client (200%Z, Some (interfaces.encodeIPRouteGet sample.route), None)
       (200%Z, sample.created, None))
    "10.0.0.0" "svm1" sample.v9_11 (sample.idle tt)
  = (Done (Some sample.route, None),
     mkWorld [] tt
       [restclient.mkCall restclient.GET "/network/ip/routes"
          (Some (interfaces.GetIPRoute_query "10.0.0.0" "svm1" sample.v9_11)) None]).
Proof.
  split.
  - destruct (interfaces.encodeIPRouteBody sample.routeBody) as [e | bodyMap] eqn:Henc;
      [discriminate Henc |].
    exact (proj1 (proj2 decode_is_left_inverse_of_encode) sample.routeBody bodyMap Henc).
  - apply (proj2 (proj2 decode_is_left_inverse_of_encode) unit (sample.opaqueSyntax _)
             (sample.client (200%Z, Some (interfaces.encodeIPRouteGet sample.route), None)
                (200%Z, sample.created, None))
             "10.0.0.0" "svm1" sample.v9_11 (sample.idle tt) 200%Z sample.route).
    reflexivity.
Defined.

(** ** The resource *)

#[global] Arguments interfaces.GetIPRoute : simpl never.
#[global] Arguments interfaces.CreateIPRoute : simpl never.
#[global] Arguments interfaces.DeleteIPRoute : simpl never.

Example Delete_null_UUID :
  provider.IPRouteResource_Delete (sample.resource sample.noRecord)
    (provider.mkDeleteRequest (tfsdk.mkData [] (sample.model types.StringNull)))
    (sample.idle (Some (sample.model types.StringNull)))
  = (Done tt,
     mkWorld [diag.NewErrorDiagnostic "UUID is null" "ip_interface UUID is null"]
       (Some (sample.model types.StringNull)) []).
Proof. reflexivity. Qed.

Example Delete_with_UUID :
  provider.IPRouteResource_Delete (sample.resource sample.noRecord)
    (provider.mkDeleteRequest (tfsdk.mkData [] (sample.model (types.StringValue "1cd8a442"))))
    (sample.idle (Some (sample.model (types.StringValue "1cd8a442"))))
  = (Done tt,
     mkWorld [] (Some (sample.model (types.StringValue "1cd8a442")))
       [restclient.mkCall restclient.DELETE "/network/ip/routes/1cd8a442" None None]).
Proof. reflexivity. Qed.

(** The connection profile is resolved before the identifier is looked at. *)
Example Delete_null_UUID_without_client :
  provider.IPRouteResource_Delete sample.noProfile
    (provider.mkDeleteRequest (tfsdk.mkData [] (sample.model types.StringNull)))
    (sample.idle (Some (sample.model types.StringNull)))
  = (Done tt,
     mkWorld [diag.NewErrorDiagnostic "connection profile not found" "cluster1"]
       (Some (sample.model types.StringNull)) []).
Proof. reflexivity. Qed.

(** C4, as the code has it. For every [Delete] of the IP route resource whose
    prior state has a null UUID, no request is put on the wire
    ([DeleteIPRoute] is not invoked); and when the prior state is read
    without an error and the client of the connection profile is obtained,
    the operation fails with the validation error "UUID is null" /
    "ip_interface UUID is null", handed to the error handler, and does
    nothing else.  The client is resolved before the UUID is looked at. *)
Theorem Delete_null_UUID_is_rejected (r : provider.IPRouteResource)
    (req : provider.DeleteRequest) (w : World (option provider.IPRouteResourceModel)) :
  let data := tfsdk.GetValue (provider.DeleteState req) in
  let diags := Diagnostics w ++ tfsdk.GetDiagnostics (provider.DeleteState req) in
  types.IsNull (provider.UUID data) = true ->
  Calls (provider.IPRouteResource_Delete r req w).2 = Calls w /\
  (diag.HasError diags = false ->
   forall client : restclient.RestClient,
     provider.NewClient (provider.providerConfig (provider.config r))
       (types.ValueString (provider.CxProfileName data)) = inl client ->
     provider.IPRouteResource_Delete r req w
     = (Done tt,
        mkWorld (diags ++ [diag.NewErrorDiagnostic "UUID is null" "ip_interface UUID is null"])
          (State w) (Calls w))).
Proof.
  intros data diags Hnull. subst data diags.
  unfold provider.IPRouteResource_Delete, provider.getRestClient, utils.MakeAndReportError.
  run. unfold diag.Append. rewrite Hnull.
  destruct (diag.HasError _) eqn:Hdiags.
  - split; [reflexivity | discriminate].
  - destruct (provider.NewClient _ _) as [client | e] eqn:Hclient; cbn.
    + split; [reflexivity |]. intros _ client' [= <-]. reflexivity.
    + split; [reflexivity |]. intros _ client' [=].
Qed.

Lemma Delete_null_UUID_is_rejected_witness :
  Calls (provider.IPRouteResource_Delete (sample.resource sample.noRecord)
           (provider.mkDeleteRequest (tfsdk.mkData [] (sample.model types.StringNull)))
           (sample.idle (Some (sample.model types.StringNull)))).2 = []
  /\
  provider.IPRouteResource_Delete (sample.resource sample.noRecord)
    (provider.mkDeleteRequest (tfsdk.mkData [] (sample.model types.StringNull)))
    (sample.idle (Some (sample.model types.StringNull)))
  = (Done tt,
     mkWorld [diag.NewErrorDiagnostic "UUID is null" "ip_interface UUID is null"]
       (Some (sample.model types.StringNull)) []).
Proof.
  destruct (Delete_null_UUID_is_rejected (sample.resource sample.noRecord)
              (provider.mkDeleteRequest (tfsdk.mkData [] (sample.model types.StringNull)))
              (sample.idle (Some (sample.model types.StringNull))) eq_refl)
    as [Hcalls Hfails].
  split; [exact Hcalls | exact (Hfails eq_refl sample.noRecord eq_refl)].
Defined.

(** C4, as the specification states it, fails: with a null UUID and a
    connection profile that resolves to no client, [Delete] ends with the
    client's error only; no validation error is among the diagnostics. *)
Lemma Delete_null_UUID_validation_counterexample :
  types.IsNull (provider.UUID (sample.model types.StringNull)) = true /\
  Diagnostics
    (provider.IPRouteResource_Delete sample.noProfile
       (provider.mkDeleteRequest (tfsdk.mkData [] (sample.model types.StringNull)))
       (sample.idle (Some (sample.model types.StringNull)))).2
  = [diag.NewErrorDiagnostic "connection profile not found" "cluster1"] /\
  ~ In (diag.NewErrorDiagnostic "UUID is null" "ip_interface UUID is null")
       (Diagnostics
          (provider.IPRouteResource_Delete sample.noProfile
             (provider.mkDeleteRequest (tfsdk.mkData [] (sample.model types.StringNull)))
             (sample.idle (Some (sample.model types.StringNull)))).2).
Proof.
  split; [reflexivity |]. split; [reflexivity |].
  intros [Hfirst | []]. discriminate Hfirst.
Qed.

Example Update_sets_plan :
  provider.IPRouteResource_Update (sample.resource sample.noRecord)
    (provider.mkUpdateRequest (tfsdk.mkData [] (sample.model (types.StringValue "1cd8a442"))))
    (sample.idle (Some (sample.model types.StringUnknown)))
  = (Done tt, mkWorld [] (Some (sample.model (types.StringValue "1cd8a442"))) []).
Proof. reflexivity. Qed.

(** C9. For every [Update] of the IP route resource no request is put on the
    wire, and, the plan being read without an error, the resulting Terraform
    state is the planned data unchanged and nothing is reported. *)
Theorem Update_makes_no_call_and_sets_plan (r : provider.IPRouteResource)
    (req : provider.UpdateRequest) (w : World (option provider.IPRouteResourceModel)) :
  let data := tfsdk.GetValue (provider.UpdatePlan req) in
  let diags := Diagnostics w ++ tfsdk.GetDiagnostics (provider.UpdatePlan req) in
  Calls (provider.IPRouteResource_Update r req w).2 = Calls w /\
  (diag.HasError diags = false ->
   provider.IPRouteResource_Update r req w = (Done tt, mkWorld diags (Some data) (Calls w))).
Proof.
  intros data diags. subst data diags.
  unfold provider.IPRouteResource_Update. run. unfold diag.Append.
  destruct (diag.HasError _) eqn:Hdiags.
  - split; [reflexivity | discriminate].
  - split; [reflexivity | intros _; reflexivity].
Qed.

Lemma Update_makes_no_call_and_sets_plan_witness :
  provider.IPRouteResource_Update (sample.resource sample.noRecord)
    (provider.mkUpdateRequest (tfsdk.mkData [] (sample.model (types.StringValue "1cd8a442"))))
    (sample.idle (Some (sample.model types.StringUnknown)))
  = (Done tt, mkWorld [] (Some (sample.model (types.StringValue "1cd8a442"))) []).
Proof.
  apply (proj2 (Update_makes_no_call_and_sets_plan (sample.resource sample.noRecord)
                  (provider.mkUpdateRequest
                     (tfsdk.mkData [] (sample.model (types.StringValue "1cd8a442"))))
                  (sample.idle (Some (sample.model types.StringUnknown))))).
  reflexivity.
Defined.

Example Read_refreshes_route_fields :
  provider.IPRouteResource_Read (rawSyntax := sample.opaqueSyntax _)
    (fun _ => inl (interfaces.mkCluster sample.v9_11))
    (sample.resource
       (sample.client (200%Z, Some (interfaces.encodeIPRouteGet sample.route), None)
          (200%Z, sample.created, None)))
    (provider.mkReadRequest (tfsdk.mkData [] (sample.model (types.StringValue "stale-uuid"))))
    (sample.idle (Some (sample.model (types.StringValue "stale-uuid"))))
  = (Done tt,
     mkWorld []
       (Some (provider.mkIPRouteResourceModel (types.StringValue "cluster1")
                (types.StringValue "svm1")
                (Some (provider.mkDestinationModel (types.StringValue "10.0.0.0")
                         (types.StringValue "24")))
                (types.StringValue "10.1.1.1") (types.Int64Value 20)
                (types.StringValue "stale-uuid")))
       [restclient.mkCall restclient.GET "/network/ip/routes"
          (Some (interfaces.GetIPRoute_query "10.0.0.0" "svm1" sample.v9_11)) None]).
Proof. reflexivity. Qed.

(** C10. For every successful [Read] of the IP route resource (it ends with
    no error in the diagnostics), the resulting state is the prior state with
    Destination, Gateway, Metric and SVMName overwritten from the record the
    transport returned, and with UUID and CxProfileName carried over from the
    prior state unchanged: the UUID of the returned record is not used. *)
Theorem Read_overwrites_route_fields_only {rawSyntax : fmt.GoSyntax RawRecord}
    (GetCluster : restclient.RestClient -> interfaces.Cluster + utils.ClassifiedError)
    (r : provider.IPRouteResource) (req : provider.ReadRequest)
    (w w' : World (option provider.IPRouteResourceModel)) :
  let data := tfsdk.GetValue (provider.ReadState req) in
  provider.IPRouteResource_Read GetCluster r req w = (Done tt, w') ->
  diag.HasError (Diagnostics w') = false ->
  exists destination client cluster statusCode record restInfo,
    provider.Destination data = Some destination /\
    provider.NewClient (provider.providerConfig (provider.config r))
      (types.ValueString (provider.CxProfileName data)) = inl client /\
    GetCluster client = inl cluster /\
    restclient.GetNilOrOneRecord client "/network/ip/routes"
      (interfaces.GetIPRoute_query (types.ValueString (provider.Address destination))
         (types.ValueString (provider.SVMName data)) (interfaces.Version cluster)) None
      = (statusCode, Some record, None) /\
    interfaces.decodeIPRouteGet record = inr restInfo /\
    State w'
    = Some (provider.mkIPRouteResourceModel
              (provider.CxProfileName data)
              (types.StringValue (interfaces.Name (interfaces.SVMName restInfo)))
              (Some (provider.mkDestinationModel
                       (types.StringValue
                          (interfaces.Address (interfaces.Destination restInfo)))
                       (types.StringValue
                          (interfaces.Netmask (interfaces.Destination restInfo)))))
              (types.StringValue (interfaces.Gateway restInfo))
              (types.Int64Value (interfaces.Metric restInfo))
              (provider.UUID data)).
Proof.
  intros data Hrun Hok. subst data.
  unfold provider.IPRouteResource_Read, provider.getRestClient, provider.callGetCluster,
    utils.MakeAndReportError in Hrun.
  run_in Hrun. unfold diag.Append in Hrun.
  destruct (diag.HasError (Diagnostics w ++ _)) eqn:Hdiags.
  { injection Hrun as <-. cbn in Hok. congruence. }
  destruct (provider.NewClient _ _) as [client | e] eqn:Hclient; cbn in Hrun.
  2: { injection Hrun as <-. cbn in Hok. by rewrite HasError_reported in Hok. }
  destruct (GetCluster client) as [cluster | e] eqn:Hcluster; cbn in Hrun.
  2: { injection Hrun as <-. cbn in Hok. by rewrite HasError_reported in Hok. }
  destruct (provider.Destination _) as [destination |] eqn:Hdestination; [| discriminate Hrun].
  destruct (interfaces.GetIPRoute _ _ _ _ _) as [[[restInfo err] | msg] w1] eqn:Hget;
    [| discriminate Hrun].
  apply GetIPRoute_inv in Hget
    as [(statusCode & record & dataONTAP & Hrecord & Hdecode & -> & -> & ->)
       | (e & -> & -> & ->)].
  - cbn in Hrun. injection Hrun as <-. cbn.
    exists destination, client, cluster, statusCode, record, dataONTAP. auto 10.
  - cbn in Hrun. injection Hrun as <-. cbn in Hok. unfold reported in Hok.
    by rewrite HasError_reported in Hok.
Qed.

Lemma Read_overwrites_route_fields_only_witness :
  exists restInfo : interfaces.IPRouteGetDataModelONTAP,
    interfaces.UUID restInfo = "1cd8a442-86d1-11e0-ae1c-123478563412" /\
    State (provider.IPRouteResource_Read (rawSyntax := sample.opaqueSyntax _)
             (fun _ => inl (interfaces.mkCluster sample.v9_11))
             (sample.resource
                (sample.client (200%Z, Some (interfaces.encodeIPRouteGet sample.route), None)
                   (200%Z, sample.created, None)))
             (provider.mkReadRequest
                (tfsdk.mkData [] (sample.model (types.StringValue "stale-uuid"))))
             (sample.idle (Some (sample.model (types.StringValue "stale-uuid"))))).2
    = Some (provider.mkIPRouteResourceModel (types.StringValue "cluster1")
              (types.StringValue (interfaces.Name (interfaces.SVMName restInfo)))
              (Some (provider.mkDestinationModel
                       (types.StringValue
                          (interfaces.Address (interfaces.Destination restInfo)))
                       (types.StringValue
                          (interfaces.Netmask (interfaces.Destination restInfo)))))
              (types.StringValue (interfaces.Gateway restInfo))
              (types.Int64Value (interfaces.Metric restInfo))
              (types.StringValue "stale-uuid")).
Proof.
  destruct (Read_overwrites_route_fields_only (rawSyntax := sample.opaqueSyntax _)
              (fun _ => inl (interfaces.mkCluster sample.v9_11))
              (sample.resource
                 (sample.client (200%Z, Some (interfaces.encodeIPRouteGet sample.route), None)
                    (200%Z, sample.created, None)))
              (provider.mkReadRequest
                 (tfsdk.mkData [] (sample.model (types.StringValue "stale-uuid"))))
              (sample.idle (Some (sample.model (types.StringValue "stale-uuid"))))
              _ eq_refl eq_refl)
    as (destination & client & cluster & statusCode & record & restInfo
        & _ & Hclient & _ & Hrecord & Hdecode & Hstate).
  exists restInfo. split; [| exact Hstate].
  injection Hclient as <-. injection Hrecord as _ <-.
  rewrite decode_encode_IPRouteGet in Hdecode. by injection Hdecode as <-.
Defined.

(** * Further properties of the operations *)

(** ** The outcomes of the three operations *)

(** X1. [GetIPRoute] never panics, puts exactly one read on the wire and
    leaves the state alone; it returns either a record and no error, adding
    no diagnostic, or no record and an error, adding exactly that error as
    one diagnostic. *)
Theorem GetIPRoute_record_or_reported_error {S} {rawSyntax : fmt.GoSyntax RawRecord}
    (r : restclient.RestClient) (Destination svmName : string)
    (version : interfaces.versionModelONTAP) (w : World S) :
  exists out w',
    interfaces.GetIPRoute r Destination svmName version w = (Done out, w') /\
    State w' = State w /\
    Calls w' = Calls w ++ [restclient.mkCall restclient.GET "/network/ip/routes"
                             (Some (interfaces.GetIPRoute_query Destination svmName version))
                             None] /\
    ((exists x, out = (Some x, None) /\ Diagnostics w' = Diagnostics w) \/
     (exists e, out = (None, Some e) /\ Diagnostics w' = Diagnostics w ++ [reported e])).
Proof.
  unfold interfaces.GetIPRoute, GetNilOrOneRecord, utils.MakeAndReportError. run.
  destruct (restclient.GetNilOrOneRecord r _ _ _) as [[sc resp] [err |]];
    [| destruct resp as [record |]]; cbn.
  - eexists _, _. split; [reflexivity |]. cbn. repeat split. right. eauto.
  - destruct (interfaces.decodeIPRouteGet record) as [err | x].
    + eexists _, _. split; [reflexivity |]. cbn. repeat split. right. eauto.
    + eexists _, _. split; [reflexivity |]. cbn. repeat split. left. eauto.
  - eexists _, _. split; [reflexivity |]. cbn. repeat split. right. eauto.
Qed.

(** X2. When the one record the read returned does not decode, [GetIPRoute]
    returns no record at all (nothing of what did decode) and reports
    "failed to decode response from GET /network/ip/routes" with the decode
    error, the status code and the rendered response in the detail. *)
Theorem GetIPRoute_decode_failure {S} {rawSyntax : fmt.GoSyntax RawRecord}
    (r : restclient.RestClient) (Destination svmName : string)
    (version : interfaces.versionModelONTAP) (w : World S)
    (statusCode : Z) (record : RawRecord) (err : error) :
  restclient.GetNilOrOneRecord r "/network/ip/routes"
    (interfaces.GetIPRoute_query Destination svmName version) None
    = (statusCode, Some record, None) ->
  interfaces.decodeIPRouteGet record = inl err ->
  let e := utils.mkClassifiedError "failed to decode response from GET /network/ip/routes"
             ("error: " +:+ err +:+ ", statusCode " +:+ fmt.d statusCode
                +:+ ", response " +:+ fmt.v record) in
  interfaces.GetIPRoute r Destination svmName version w
  = (Done (None, Some e),
     mkWorld (Diagnostics w ++ [reported e]) (State w)
       (Calls w ++ [restclient.mkCall restclient.GET "/network/ip/routes"
                      (Some (interfaces.GetIPRoute_query Destination svmName version))
                      None])).
Proof.
  intros Hget Hdecode e. subst e.
  unfold interfaces.GetIPRoute, GetNilOrOneRecord, utils.MakeAndReportError. run.
  rewrite Hget. cbn. rewrite Hdecode. reflexivity.
Qed.

Lemma GetIPRoute_decode_failure_witness :
  interfaces.GetIPRoute (rawSyntax := sample.opaqueSyntax _)
    (sample.client (200%Z, Some sample.malformed, None) (200%Z, sample.created, None))
    "10.0.0.0" "" sample.v9_11 (sample.idle tt)
  = (Done (None,
           Some (utils.mkClassifiedError
                   "failed to decode response from GET /network/ip/routes"
                   "error: 'gateway' expected type 'string', got unconvertible type 'int64', statusCode 200, response {...}")),
     mkWorld
       [diag.NewErrorDiagnostic "failed to decode response from GET /network/ip/routes"
          "error: 'gateway' expected type 'string', got unconvertible type 'int64', statusCode 200, response {...}"]
       tt
       [restclient.mkCall restclient.GET "/network/ip/routes"
          (Some (interfaces.GetIPRoute_query "10.0.0.0" "" sample.v9_11)) None]).
Proof.
  apply (GetIPRoute_decode_failure (rawSyntax := sample.opaqueSyntax _)
           (sample.client (200%Z, Some sample.malformed, None) (200%Z, sample.created, None))
           "10.0.0.0" "" sample.v9_11 (sample.idle tt) 200%Z sample.malformed
           "'gateway' expected type 'string', got unconvertible type 'int64'");
    reflexivity.
Defined.

(** X3. When the create succeeds and the reply holds at least one record,
    [CreateIPRoute] returns the first record decoded, whatever follows it in
    the list; it has put one POST on the wire, with the query
    return_records=true and the encoded body, and reports nothing. *)
Theorem CreateIPRoute_returns_first_record {S}
    {responseSyntax : fmt.GoSyntax restclient.RestResponse}
    {bodySyntax : fmt.GoSyntax interfaces.IPRouteResourceBodyDataModelONTAP}
    (r : restclient.RestClient) (w : World S)
    (body : interfaces.IPRouteResourceBodyDataModelONTAP) (bodyMap : RawRecord)
    (statusCode : Z) (response : restclient.RestResponse)
    (record : RawRecord) (others : list RawRecord)
    (dataONTAP : interfaces.IPRouteGetDataModelONTAP) :
  interfaces.encodeIPRouteBody body = inr bodyMap ->
  restclient.CallCreateMethod r "/network/ip/routes"
    (restclient.Add restclient.emptyQuery "return_records" "true") bodyMap
    = (statusCode, response, None) ->
  restclient.Records response = record :: others ->
  interfaces.decodeIPRouteGet record = inr dataONTAP ->
  interfaces.CreateIPRoute r body w
  = (Done (Some dataONTAP, None),
     mkWorld (Diagnostics w) (State w)
       (Calls w ++ [restclient.mkCall restclient.POST "/network/ip/routes"
                      (Some (restclient.Add restclient.emptyQuery "return_records" "true"))
                      (Some bodyMap)])).
Proof.
  intros Henc Hpost Hrecords Hdecode.
  unfold interfaces.CreateIPRoute, CallCreateMethod, utils.MakeAndReportError.
  rewrite Henc. run. rewrite Hpost. cbn. rewrite Hrecords, Hdecode. reflexivity.
Qed.

Lemma CreateIPRoute_returns_first_record_witness :
  (interfaces.CreateIPRoute (responseSyntax := sample.opaqueSyntax _)
     (bodySyntax := sample.opaqueSyntax _)
     (sample.creating [interfaces.encodeIPRouteGet sample.route; sample.malformed])
     sample.routeBody (sample.idle tt)).1
  = Done (Some sample.route, None).
Proof.
  destruct (interfaces.encodeIPRouteBody sample.routeBody) as [e | bodyMap] eqn:Henc;
    [discriminate Henc |].
  rewrite (CreateIPRoute_returns_first_record (responseSyntax := sample.opaqueSyntax _)
             (bodySyntax := sample.opaqueSyntax _)
             (sample.creating [interfaces.encodeIPRouteGet sample.route; sample.malformed])
             (sample.idle tt) sample.routeBody bodyMap 201%Z
             (restclient.mkRestResponse 2
                [interfaces.encodeIPRouteGet sample.route; sample.malformed])
             (interfaces.encodeIPRouteGet sample.route) [sample.malformed] sample.route
             Henc eq_refl eq_refl eq_refl).
  reflexivity.
Defined.

(** X4. Whatever the transport answers, [CreateIPRoute] puts exactly one
    POST on the wire and leaves the state alone, and it ends in one of three
    ways: a record and no error, with no diagnostic added; no record and an
    error, with exactly that error added as one diagnostic; or the index
    panic, with no diagnostic added, which happens exactly when the transport
    reported no error and the reply holds no record. *)
Theorem CreateIPRoute_outcomes {S}
    {responseSyntax : fmt.GoSyntax restclient.RestResponse}
    {bodySyntax : fmt.GoSyntax interfaces.IPRouteResourceBodyDataModelONTAP}
    (r : restclient.RestClient) (w : World S)
    (body : interfaces.IPRouteResourceBodyDataModelONTAP) :
  exists bodyMap out w',
    interfaces.encodeIPRouteBody body = inr bodyMap /\
    interfaces.CreateIPRoute r body w = (out, w') /\
    State w' = State w /\
    Calls w' = Calls w ++ [restclient.mkCall restclient.POST "/network/ip/routes"
                             (Some (restclient.Add restclient.emptyQuery
                                      "return_records" "true"))
                             (Some bodyMap)] /\
    ((exists x, out = Done (Some x, None) /\ Diagnostics w' = Diagnostics w) \/
     (exists e, out = Done (None, Some e) /\ Diagnostics w' = Diagnostics w ++ [reported e]) \/
     (out = Panic "runtime error: index out of range [0] with length 0" /\
      Diagnostics w' = Diagnostics w)) /\
    (out = Panic "runtime error: index out of range [0] with length 0" <->
     exists statusCode response,
       restclient.CallCreateMethod r "/network/ip/routes"
         (restclient.Add restclient.emptyQuery "return_records" "true") bodyMap
         = (statusCode, response, None) /\
       restclient.Records response = []).
Proof.
  destruct (interfaces.encodeIPRouteBody body) as [e | bodyMap] eqn:Henc;
    [discriminate Henc |].
  exists bodyMap.
  unfold interfaces.CreateIPRoute, CallCreateMethod, utils.MakeAndReportError.
  rewrite Henc. run.
  destruct (restclient.CallCreateMethod r _ _ bodyMap) as [[sc resp] [err |]] eqn:Hpost; cbn.
  - eexists _, _. split; [reflexivity |]. split; [reflexivity |]. cbn.
    repeat split; [right; left; eauto | discriminate |].
    intros (sc' & resp' & [=] & _).
  - destruct (restclient.Records resp) as [| record others] eqn:Hrecords.
    + eexists _, _. split; [reflexivity |]. split; [reflexivity |]. cbn.
      repeat split; [right; right; eauto | eauto].
    + destruct (interfaces.decodeIPRouteGet record) as [err | x].
      * eexists _, _. split; [reflexivity |]. split; [reflexivity |]. cbn.
        repeat split; [right; left; eauto | discriminate |].
        intros (sc' & resp' & [= <- <-] & Hnone). congruence.
      * eexists _, _. split; [reflexivity |]. split; [reflexivity |]. cbn.
        repeat split; [left; eauto | discriminate |].
        intros (sc' & resp' & [= <- <-] & Hnone). congruence.
Qed.

(** X5. [DeleteIPRoute] never panics, puts exactly one DELETE on the wire,
    at "/network/ip/routes/" followed by the identifier, with no query and no
    body, and leaves the state alone; it returns an error, added as one
    diagnostic, exactly when the transport reported one, and otherwise
    returns nil and reports nothing, whatever the status code. *)
Theorem DeleteIPRoute_outcomes {S} (r : restclient.RestClient) (uuid : string)
    (w : World S) :
  exists result w',
    interfaces.DeleteIPRoute r uuid w = (Done result, w') /\
    State w' = State w /\
    Calls w' = Calls w ++ [restclient.mkCall restclient.DELETE
                             ("/network/ip/routes/" +:+ uuid) None None] /\
    match (restclient.CallDeleteMethod r ("/network/ip/routes/" +:+ uuid) None None).2 with
    | None => result = None /\ Diagnostics w' = Diagnostics w
    | Some _ => exists e, result = Some e /\ Diagnostics w' = Diagnostics w ++ [reported e]
    end.
Proof.
  unfold interfaces.DeleteIPRoute, CallDeleteMethod, utils.MakeAndReportError. run.
  change ("/network/ip/routes" +:+ "/" +:+ uuid) with ("/network/ip/routes/" +:+ uuid).
  destruct (restclient.CallDeleteMethod r _ None None) as [[sc resp] [err |]]; cbn.
  - eexists _, _. split; [reflexivity |]. cbn. repeat split. eauto.
  - eexists _, _. split; [reflexivity |]. cbn. repeat split.
Qed.

(** ** Creating and deleting the resource *)

Lemma IsNull_or_ValueString (x : types.String) :
  (if types.IsNull x then "" else types.ValueString x) = types.ValueString x.
Proof. by destruct x. Qed.

Lemma Int64IsNull_or_ValueInt64 (x : types.Int64) :
  (if types.Int64IsNull x then 0%Z else types.ValueInt64 x) = types.ValueInt64 x.
Proof. by destruct x. Qed.

(** The cases of [CreateIPRoute], for its callers. *)
Lemma CreateIPRoute_inv {S}
    {responseSyntax : fmt.GoSyntax restclient.RestResponse}
    {bodySyntax : fmt.GoSyntax interfaces.IPRouteResourceBodyDataModelONTAP}
    (r : restclient.RestClient) (w : World S)
    (body : interfaces.IPRouteResourceBodyDataModelONTAP) out w' :
  interfaces.CreateIPRoute r body w = (out, w') ->
  exists bodyMap,
    interfaces.encodeIPRouteBody body = inr bodyMap /\
    State w' = State w /\
    Calls w' = Calls w ++ [restclient.mkCall restclient.POST "/network/ip/routes"
                             (Some (restclient.Add restclient.emptyQuery
                                      "return_records" "true"))
                             (Some bodyMap)] /\
    ((exists statusCode response record others x,
         restclient.CallCreateMethod r "/network/ip/routes"
           (restclient.Add restclient.emptyQuery "return_records" "true") bodyMap
           = (statusCode, response, None) /\
         restclient.Records response = record :: others /\
         interfaces.decodeIPRouteGet record = inr x /\
         out = Done (Some x, None) /\ Diagnostics w' = Diagnostics w) \/
     (exists e, out = Done (None, Some e) /\ Diagnostics w' = Diagnostics w ++ [reported e]) \/
     (exists msg, out = Panic msg /\ Diagnostics w' = Diagnostics w)).
Proof.
  destruct (interfaces.encodeIPRouteBody body) as [e | bodyMap] eqn:Henc;
    [discriminate Henc |].
  intros Hrun. exists bodyMap. split; [reflexivity |]. revert Hrun.
  unfold interfaces.CreateIPRoute, CallCreateMethod, utils.MakeAndReportError.
  rewrite Henc. run.
  destruct (restclient.CallCreateMethod r _ _ bodyMap) as [[sc resp] [err |]] eqn:Hpost; cbn.
  - intros [= <- <-]. cbn. repeat split. right. left. eauto.
  - destruct (restclient.Records resp) as [| record others] eqn:Hrecords.
    + intros [= <- <-]. cbn. repeat split. right. right. eauto.
    + destruct (interfaces.decodeIPRouteGet record) as [err | x] eqn:Hdecode.
      * intros [= <- <-]. cbn. repeat split. right. left. eauto.
      * intros [= <- <-]. cbn. repeat split. left.
        exists sc, resp, record, others, x. auto.
Qed.

Section Create_cases.

Context {responseSyntax : fmt.GoSyntax restclient.RestResponse}
        {bodySyntax : fmt.GoSyntax interfaces.IPRouteResourceBodyDataModelONTAP}.
Variables (r : provider.IPRouteResource) (req : provider.CreateRequest).
Variable w : World (option provider.IPRouteResourceModel).

Let data := tfsdk.GetValue (provider.CreatePlan req).
Let diags := Diagnostics w ++ tfsdk.GetDiagnostics (provider.CreatePlan req).

(** What [Create] does with its plan, step by step. *)
Lemma Create_steps :
  provider.IPRouteResource_Create r req w =
  if diag.HasError diags then (Done tt, mkWorld diags (State w) (Calls w))
  else
    match provider.Destination data with
    | None => (Panic provider.nilDereference, mkWorld diags (State w) (Calls w))
    | Some destination =>
        match provider.NewClient (provider.providerConfig (provider.config r))
                (types.ValueString (provider.CxProfileName data)) with
        | inr e => (Done tt, mkWorld (diags ++ [reported e]) (State w) (Calls w))
        | inl client =>
            match interfaces.CreateIPRoute client
                    (interfaces.Body.mkIPRouteBody
                       (interfaces.mkDestination
                          (types.ValueString (provider.Address destination))
                          (types.ValueString (provider.Netmask destination)))
                       (interfaces.mkVserver (types.ValueString (provider.SVMName data)))
                       (types.ValueString (provider.Gateway data))
                       (types.ValueInt64 (provider.Metric data)))
                    (mkWorld diags (State w) (Calls w)) with
            | (Done (Some resource, None), w1) =>
                (Done tt,
                 mkWorld (Diagnostics w1)
                   (Some (provider.mkIPRouteResourceModel
                            (provider.CxProfileName data) (provider.SVMName data)
                            (provider.Destination data) (provider.Gateway data)
                            (provider.Metric data)
                            (types.StringValue (interfaces.UUID resource))))
                   (Calls w1))
            | (Done (None, None), w1) => (Panic provider.nilDereference, w1)
            | (Done (_, Some _), w1) => (Done tt, w1)
            | (Panic msg, w1) => (Panic msg, w1)
            end
        end
    end.
Proof.
  unfold provider.IPRouteResource_Create, provider.getRestClient, utils.MakeAndReportError.
  run. unfold diag.Append. fold data diags.
  destruct (diag.HasError diags); [reflexivity |].
  destruct (provider.Destination data) as [destination |]; [| reflexivity].
  rewrite !IsNull_or_ValueString, Int64IsNull_or_ValueInt64.
  destruct (provider.NewClient _ _) as [client | e]; [| reflexivity]. cbn.
  destruct (interfaces.CreateIPRoute _ _ _) as [[[[resource |] [e |]] | msg] w1];
    try reflexivity; by destruct w1.
Qed.

End Create_cases.

(** X6. When the plan is read without an error, the client of the connection
    profile is obtained and the create returns at least one record that
    decodes, [Create] puts one POST on the wire, whose body carries the
    planned address, netmask, virtual server, gateway and metric (a null or
    unknown attribute as "" or 0), and sets the state to the planned data
    with UUID replaced by the UUID of the first record returned; nothing is
    reported. *)
Theorem Create_stores_UUID_of_created_record
    {responseSyntax : fmt.GoSyntax restclient.RestResponse}
    {bodySyntax : fmt.GoSyntax interfaces.IPRouteResourceBodyDataModelONTAP}
    (r : provider.IPRouteResource) (req : provider.CreateRequest)
    (w : World (option provider.IPRouteResourceModel))
    (destination : provider.DestinationDataSourceModel) (client : restclient.RestClient)
    (bodyMap : RawRecord) (statusCode : Z) (response : restclient.RestResponse)
    (record : RawRecord) (others : list RawRecord)
    (resource : interfaces.IPRouteGetDataModelONTAP) :
  let data := tfsdk.GetValue (provider.CreatePlan req) in
  let diags := Diagnostics w ++ tfsdk.GetDiagnostics (provider.CreatePlan req) in
  let body :=
    interfaces.Body.mkIPRouteBody
      (interfaces.mkDestination (types.ValueString (provider.Address destination))
                                (types.ValueString (provider.Netmask destination)))
      (interfaces.mkVserver (types.ValueString (provider.SVMName data)))
      (types.ValueString (provider.Gateway data))
      (types.ValueInt64 (provider.Metric data)) in
  diag.HasError diags = false ->
  provider.Destination data = Some destination ->
  provider.NewClient (provider.providerConfig (provider.config r))
    (types.ValueString (provider.CxProfileName data)) = inl client ->
  interfaces.encodeIPRouteBody body = inr bodyMap ->
  restclient.CallCreateMethod client "/network/ip/routes"
    (restclient.Add restclient.emptyQuery "return_records" "true") bodyMap
    = (statusCode, response, None) ->
  restclient.Records response = record :: others ->
  interfaces.decodeIPRouteGet record = inr resource ->
  provider.IPRouteResource_Create r req w
  = (Done tt,
     mkWorld diags
       (Some (provider.mkIPRouteResourceModel
                (provider.CxProfileName data) (provider.SVMName data)
                (provider.Destination data) (provider.Gateway data)
                (provider.Metric data) (types.StringValue (interfaces.UUID resource))))
       (Calls w ++ [restclient.mkCall restclient.POST "/network/ip/routes"
                      (Some (restclient.Add restclient.emptyQuery "return_records" "true"))
                      (Some bodyMap)])).
Proof.
  intros data diags body Hok Hdestination Hclient Henc Hpost Hrecords Hdecode.
  subst data diags body.
  rewrite Create_steps, Hok, Hdestination, Hclient.
  unfold interfaces.CreateIPRoute, CallCreateMethod, utils.MakeAndReportError.
  rewrite Henc. run. rewrite Hpost. cbn. rewrite Hrecords, Hdecode. reflexivity.
Qed.

Lemma Create_stores_UUID_of_created_record_witness :
  exists bodyMap,
    interfaces.encodeIPRouteBody
      (interfaces.Body.mkIPRouteBody (interfaces.mkDestination "10.0.0.0" "24")
         (interfaces.mkVserver "svm1") "" 0) = inr bodyMap /\
    provider.IPRouteResource_Create (responseSyntax := sample.opaqueSyntax _)
      (bodySyntax := sample.opaqueSyntax _)
      (sample.resource (sample.creating [interfaces.encodeIPRouteGet sample.route]))
      (provider.mkCreateRequest (sample.request sample.plan))
      (sample.idle None)
    = (Done tt,
       mkWorld []
         (Some (provider.mkIPRouteResourceModel (types.StringValue "cluster1")
                  (types.StringValue "svm1")
                  (Some (provider.mkDestinationModel (types.StringValue "10.0.0.0")
                           (types.StringValue "24")))
                  types.StringNull types.Int64Null
                  (types.StringValue "1cd8a442-86d1-11e0-ae1c-123478563412")))
         [restclient.mkCall restclient.POST "/network/ip/routes"
            (Some (restclient.Add restclient.emptyQuery "return_records" "true"))
            (Some bodyMap)]).
Proof.
  destruct (interfaces.encodeIPRouteBody
              (interfaces.Body.mkIPRouteBody (interfaces.mkDestination "10.0.0.0" "24")
                 (interfaces.mkVserver "svm1") "" 0)) as [e | bodyMap] eqn:Henc;
    [discriminate Henc |].
  exists bodyMap. split; [reflexivity |].
  apply (Create_stores_UUID_of_created_record (responseSyntax := sample.opaqueSyntax _)
           (bodySyntax := sample.opaqueSyntax _)
           (sample.resource (sample.creating [interfaces.encodeIPRouteGet sample.route]))
           (provider.mkCreateRequest (sample.request sample.plan)) (sample.idle None)
           (provider.mkDestinationModel (types.StringValue "10.0.0.0") (types.StringValue "24"))
           (sample.creating [interfaces.encodeIPRouteGet sample.route])
           bodyMap 201%Z
           (restclient.mkRestResponse 1 [interfaces.encodeIPRouteGet sample.route])
           (interfaces.encodeIPRouteGet sample.route) [] sample.route);
    try reflexivity; exact Henc.
Defined.

(** X7. [Create] sets the state only on success.  Whatever the plan and the
    transport, either the state is left as it was, or the operation ended
    normally with no error in the diagnostics and the state is the planned
    data with UUID set to a known string; and it puts at most one request on
    the wire, a POST at "/network/ip/routes". *)
Theorem Create_sets_state_only_on_success
    {responseSyntax : fmt.GoSyntax restclient.RestResponse}
    {bodySyntax : fmt.GoSyntax interfaces.IPRouteResourceBodyDataModelONTAP}
    (r : provider.IPRouteResource) (req : provider.CreateRequest)
    (w : World (option provider.IPRouteResourceModel)) :
  let data := tfsdk.GetValue (provider.CreatePlan req) in
  let out := (provider.IPRouteResource_Create r req w).1 in
  let w' := (provider.IPRouteResource_Create r req w).2 in
  (State w' = State w \/
   (out = Done tt /\
    diag.HasError (Diagnostics w') = false /\
    exists uuid : string,
      State w'
      = Some (provider.mkIPRouteResourceModel
                (provider.CxProfileName data) (provider.SVMName data)
                (provider.Destination data) (provider.Gateway data)
                (provider.Metric data) (types.StringValue uuid)))) /\
  (Calls w' = Calls w \/
   exists q b, Calls w' = Calls w ++ [restclient.mkCall restclient.POST
                                        "/network/ip/routes" (Some q) (Some b)]).
Proof.
  intros data out w'. subst data out w'. rewrite Create_steps.
  destruct (diag.HasError _) eqn:Hok; [cbn; auto |].
  destruct (provider.Destination _) as [destination |]; [| cbn; auto].
  destruct (provider.NewClient _ _) as [client | e]; [| cbn; auto].
  destruct (interfaces.CreateIPRoute _ _ _) as [out w1] eqn:Hcreate.
  apply CreateIPRoute_inv in Hcreate as (bodyMap & _ & Hstate & Hcalls & Hout).
  cbn in Hstate, Hcalls.
  destruct Hout as [(sc & resp & record & others & x & _ & _ & _ & -> & Hdiags)
                   | [(e & -> & _) | (msg & -> & _)]]; cbn.
  - cbn in Hdiags. rewrite Hdiags. split; [right; eauto | right; eauto].
  - split; [left; exact Hstate | right; eauto].
  - split; [left; exact Hstate | right; eauto].
Qed.

(** X8. When the prior state is read without an error, the client is
    obtained and the UUID is not null, [Delete] puts exactly one DELETE on the
    wire, at "/network/ip/routes/" followed by the string value of the UUID,
    leaves the state alone and reports an error exactly when the transport
    did.  Only null is rejected: for an unknown or empty UUID the request
    goes to "/network/ip/routes/". *)
Theorem Delete_sends_DELETE_for_UUID (r : provider.IPRouteResource)
    (req : provider.DeleteRequest) (w : World (option provider.IPRouteResourceModel))
    (client : restclient.RestClient) :
  let data := tfsdk.GetValue (provider.DeleteState req) in
  let diags := Diagnostics w ++ tfsdk.GetDiagnostics (provider.DeleteState req) in
  let path := "/network/ip/routes/" +:+ types.ValueString (provider.UUID data) in
  diag.HasError diags = false ->
  provider.NewClient (provider.providerConfig (provider.config r))
    (types.ValueString (provider.CxProfileName data)) = inl client ->
  types.IsNull (provider.UUID data) = false ->
  exists w',
    provider.IPRouteResource_Delete r req w = (Done tt, w') /\
    State w' = State w /\
    Calls w' = Calls w ++ [restclient.mkCall restclient.DELETE path None None] /\
    match (restclient.CallDeleteMethod client path None None).2 with
    | None => Diagnostics w' = diags
    | Some _ =>
        exists e, Diagnostics w' = diags ++ [reported e] /\
                  utils.summary e = "error deleting /network/ip/routes"
    end.
Proof.
  intros data diags path Hok Hclient Hknown. subst data diags path.
  unfold provider.IPRouteResource_Delete, provider.getRestClient.
  run. unfold diag.Append. rewrite Hok, Hclient. cbn. rewrite Hknown.
  unfold interfaces.DeleteIPRoute, CallDeleteMethod, utils.MakeAndReportError. run.
  change ("/network/ip/routes" +:+ "/" +:+ ?u) with ("/network/ip/routes/" +:+ u).
  destruct (restclient.CallDeleteMethod client _ None None) as [[sc resp] [err |]]; cbn.
  - eexists. split; [reflexivity |]. cbn. split; [reflexivity |]. split; [reflexivity |].
    exists (utils.mkClassifiedError "error deleting /network/ip/routes"
              ("error on DELETE /network/ip/routes: " +:+ err
                 +:+ ", statusCode " +:+ fmt.d sc)).
    split; reflexivity.
  - eexists. split; [reflexivity |]. cbn. repeat split.
Qed.

Lemma Delete_sends_DELETE_for_UUID_witness :
  exists w',
    provider.IPRouteResource_Delete (sample.resource sample.noRecord)
      (provider.mkDeleteRequest (sample.request (sample.model types.StringUnknown)))
      (sample.idle (Some (sample.model types.StringUnknown))) = (Done tt, w') /\
    State w' = Some (sample.model types.StringUnknown) /\
    Calls w' = [restclient.mkCall restclient.DELETE "/network/ip/routes/" None None] /\
    Diagnostics w' = [].
Proof.
  destruct (Delete_sends_DELETE_for_UUID (sample.resource sample.noRecord)
              (provider.mkDeleteRequest (sample.request (sample.model types.StringUnknown)))
              (sample.idle (Some (sample.model types.StringUnknown)))
              sample.noRecord eq_refl eq_refl eq_refl)
    as (w' & Hrun & Hstate & Hcalls & Hdiags).
  exists w'. repeat split; [exact Hrun | exact Hstate | exact Hcalls | exact Hdiags].
Defined.

(** X9. [Delete] never panics and never sets the state, and it puts at most
    one request on the wire, a DELETE with no query and no body under
    "/network/ip/routes/". *)
Theorem Delete_keeps_state (r : provider.IPRouteResource) (req : provider.DeleteRequest)
    (w : World (option provider.IPRouteResourceModel)) :
  exists w',
    provider.IPRouteResource_Delete r req w = (Done tt, w') /\
    State w' = State w /\
    (Calls w' = Calls w \/
     exists uuid, Calls w' = Calls w ++ [restclient.mkCall restclient.DELETE
                                           ("/network/ip/routes/" +:+ uuid) None None]).
Proof.
  unfold provider.IPRouteResource_Delete, provider.getRestClient, utils.MakeAndReportError.
  run. unfold diag.Append.
  destruct (diag.HasError _); [eexists; split; [reflexivity | cbn; auto] |].
  destruct (provider.NewClient _ _) as [client | e]; cbn;
    [| eexists; split; [reflexivity | cbn; auto]].
  destruct (types.IsNull _); [eexists; split; [reflexivity | cbn; auto] |].
  unfold interfaces.DeleteIPRoute, CallDeleteMethod, utils.MakeAndReportError. run.
  change ("/network/ip/routes" +:+ "/" +:+ ?u) with ("/network/ip/routes/" +:+ u).
  destruct (restclient.CallDeleteMethod client _ None None) as [[sc resp] [err |]]; cbn;
    (eexists; split; [reflexivity | cbn; split; [reflexivity | right; eauto]]).
Qed.

(** X10. A resource that [Create] stored can be deleted: when [Create] ends
    without an error, the state it set has a UUID that is not null, and a
    [Delete] of that state by the same resource is not rejected for a null
    UUID but puts one DELETE on the wire, at "/network/ip/routes/" followed
    by that UUID. *)
Theorem Create_then_Delete
    {responseSyntax : fmt.GoSyntax restclient.RestResponse}
    {bodySyntax : fmt.GoSyntax interfaces.IPRouteResourceBodyDataModelONTAP}
    (r : provider.IPRouteResource) (req : provider.CreateRequest)
    (w w1 : World (option provider.IPRouteResourceModel)) :
  provider.IPRouteResource_Create r req w = (Done tt, w1) ->
  diag.HasError (Diagnostics w1) = false ->
  exists created uuid,
    State w1 = Some created /\
    provider.UUID created = types.StringValue uuid /\
    forall w2 : World (option provider.IPRouteResourceModel),
      diag.HasError (Diagnostics w2) = false ->
      Calls (provider.IPRouteResource_Delete r
               (provider.mkDeleteRequest (tfsdk.mkData [] created)) w2).2
      = Calls w2 ++ [restclient.mkCall restclient.DELETE
                       ("/network/ip/routes/" +:+ uuid) None None].
Proof.
  intros Hrun Hok. rewrite Create_steps in Hrun.
  destruct (diag.HasError (Diagnostics w ++ _)) eqn:Hplan.
  { injection Hrun as <-. cbn in Hok. congruence. }
  destruct (provider.Destination _) as [destination |]; [| discriminate Hrun].
  destruct (provider.NewClient _ _) as [client | e] eqn:Hclient.
  2: { injection Hrun as <-. cbn in Hok. unfold reported in Hok.
       by rewrite HasError_reported in Hok. }
  destruct (interfaces.CreateIPRoute _ _ _) as [out w0] eqn:Hcreate.
  apply CreateIPRoute_inv in Hcreate as (bodyMap & _ & _ & _ & Hout).
  destruct Hout as [(sc & resp & record & others & x & _ & _ & _ & -> & Hdiags)
                   | [(e & -> & Hdiags) | (msg & -> & _)]]; [| | discriminate Hrun].
  2: { injection Hrun as <-. rewrite Hdiags in Hok. unfold reported in Hok.
       by rewrite HasError_reported in Hok. }
  injection Hrun as <-. cbn.
  eexists _, (interfaces.UUID x). split; [reflexivity |]. split; [reflexivity |].
  intros w2 Hok2.
  unfold provider.IPRouteResource_Delete, provider.getRestClient.
  run. unfold diag.Append. rewrite app_nil_r, Hok2, Hclient. cbn.
  unfold interfaces.DeleteIPRoute, CallDeleteMethod, utils.MakeAndReportError. run.
  destruct (restclient.CallDeleteMethod client _ None None) as [[sc' resp'] [err |]];
    reflexivity.
Qed.

Lemma Create_then_Delete_witness :
  exists created,
    State (provider.IPRouteResource_Create (responseSyntax := sample.opaqueSyntax _)
             (bodySyntax := sample.opaqueSyntax _)
             (sample.resource (sample.creating [interfaces.encodeIPRouteGet sample.route]))
             (provider.mkCreateRequest (sample.request (sample.model types.StringUnknown)))
             (sample.idle None)).2 = Some created /\
    Calls (provider.IPRouteResource_Delete
             (sample.resource (sample.creating [interfaces.encodeIPRouteGet sample.route]))
             (provider.mkDeleteRequest (tfsdk.mkData [] created))
             (sample.idle (Some created))).2
    = [restclient.mkCall restclient.DELETE
         "/network/ip/routes/1cd8a442-86d1-11e0-ae1c-123478563412" None None].
Proof.
  destruct (Create_then_Delete (responseSyntax := sample.opaqueSyntax _)
              (bodySyntax := sample.opaqueSyntax _)
              (sample.resource (sample.creating [interfaces.encodeIPRouteGet sample.route]))
              (provider.mkCreateRequest (sample.request (sample.model types.StringUnknown)))
              (sample.idle None) _ eq_refl eq_refl)
    as (created & uuid & Hstate & Huuid & Hdelete).
  exists created. split; [exact Hstate |].
  rewrite (Hdelete (sample.idle (Some created)) eq_refl).
  injection Hstate as <-. by injection Huuid as <-.
Defined.

(** ** Reading the resource *)

Lemma GetIPRoute_done {S} {rawSyntax : fmt.GoSyntax RawRecord}
    (r : restclient.RestClient) (Destination svmName : string)
    (version : interfaces.versionModelONTAP) (w : World S) :
  exists restInfo err w',
    interfaces.GetIPRoute r Destination svmName version w = (Done (restInfo, err), w').
Proof.
  unfold interfaces.GetIPRoute, GetNilOrOneRecord, utils.MakeAndReportError. run.
  destruct (restclient.GetNilOrOneRecord r _ _ _) as [[sc resp] [err |]];
    [| destruct resp as [record |]]; cbn; eauto.
  destruct (interfaces.decodeIPRouteGet record); eauto.
Qed.

Section Read_cases.

Context {rawSyntax : fmt.GoSyntax RawRecord}.
Variable GetCluster : restclient.RestClient -> interfaces.Cluster + utils.ClassifiedError.
Variables (r : provider.IPRouteResource) (req : provider.ReadRequest).
Variable w : World (option provider.IPRouteResourceModel).

Let data := tfsdk.GetValue (provider.ReadState req).
Let diags := Diagnostics w ++ tfsdk.GetDiagnostics (provider.ReadState req).

(** What [Read] does with the prior state, step by step. *)
Lemma Read_steps :
  provider.IPRouteResource_Read GetCluster r req w =
  if diag.HasError diags then (Done tt, mkWorld diags (State w) (Calls w))
  else
    match provider.NewClient (provider.providerConfig (provider.config r))
            (types.ValueString (provider.CxProfileName data)) with
    | inr e => (Done tt, mkWorld (diags ++ [reported e]) (State w) (Calls w))
    | inl client =>
        match GetCluster client with
        | inr e => (Done tt, mkWorld (diags ++ [reported e]) (State w) (Calls w))
        | inl cluster =>
            match provider.Destination data with
            | None => (Panic provider.nilDereference, mkWorld diags (State w) (Calls w))
            | Some destination =>
                match interfaces.GetIPRoute client
                        (types.ValueString (provider.Address destination))
                        (types.ValueString (provider.SVMName data))
                        (interfaces.Version cluster)
                        (mkWorld diags (State w) (Calls w)) with
                | (Done (Some restInfo, None), w1) =>
                    (Done tt,
                     mkWorld (Diagnostics w1)
                       (Some (provider.mkIPRouteResourceModel
                                (provider.CxProfileName data)
                                (types.StringValue
                                   (interfaces.Name (interfaces.SVMName restInfo)))
                                (Some (provider.mkDestinationModel
                                         (types.StringValue
                                            (interfaces.Address
                                               (interfaces.Destination restInfo)))
                                         (types.StringValue
                                            (interfaces.Netmask
                                               (interfaces.Destination restInfo)))))
                                (types.StringValue (interfaces.Gateway restInfo))
                                (types.Int64Value (interfaces.Metric restInfo))
                                (provider.UUID data)))
                       (Calls w1))
                | (Done (None, None), w1) => (Panic provider.nilDereference, w1)
                | (Done (_, Some _), w1) => (Done tt, w1)
                | (Panic msg, w1) => (Panic msg, w1)
                end
            end
        end
    end.
Proof.
  unfold provider.IPRouteResource_Read, provider.getRestClient, provider.callGetCluster,
    utils.MakeAndReportError.
  run. unfold diag.Append. fold data diags.
  destruct (diag.HasError diags); [reflexivity |].
  destruct (provider.NewClient _ _) as [client | e]; [| reflexivity]. cbn.
  destruct (GetCluster client) as [cluster | e]; [| reflexivity]. cbn.
  destruct (provider.Destination data) as [destination |]; [| reflexivity].
  destruct (interfaces.GetIPRoute _ _ _ _ _) as [[[[restInfo |] [e |]] | msg] w1];
    try reflexivity; by destruct w1.
Qed.

End Read_cases.

(** X11. [Read] sets the state only on success: whatever the prior state and
    the transport, either the state is left as it was, or the operation ended
    normally with no error in the diagnostics; and it puts at most one
    request of its own on the wire, a GET at "/network/ip/routes". *)
Theorem Read_sets_state_only_on_success {rawSyntax : fmt.GoSyntax RawRecord}
    (GetCluster : restclient.RestClient -> interfaces.Cluster + utils.ClassifiedError)
    (r : provider.IPRouteResource) (req : provider.ReadRequest)
    (w : World (option provider.IPRouteResourceModel)) :
  let out := (provider.IPRouteResource_Read GetCluster r req w).1 in
  let w' := (provider.IPRouteResource_Read GetCluster r req w).2 in
  (State w' = State w \/ (out = Done tt /\ diag.HasError (Diagnostics w') = false)) /\
  (Calls w' = Calls w \/
   exists q, Calls w' = Calls w ++ [restclient.mkCall restclient.GET
                                      "/network/ip/routes" (Some q) None]).
Proof.
  intros out w'. subst out w'. rewrite Read_steps.
  destruct (diag.HasError _) eqn:Hok; [cbn; auto |].
  destruct (provider.NewClient _ _) as [client | e]; [| cbn; auto].
  destruct (GetCluster client) as [cluster | e]; [| cbn; auto].
  destruct (provider.Destination _) as [destination |]; [| cbn; auto].
  destruct (GetIPRoute_done client (types.ValueString (provider.Address destination))
              (types.ValueString (provider.SVMName (tfsdk.GetValue (provider.ReadState req))))
              (interfaces.Version cluster)
              (mkWorld (Diagnostics w ++ tfsdk.GetDiagnostics (provider.ReadState req))
                 (State w) (Calls w)))
    as (restInfo & err & w1 & Hget).
  rewrite Hget.
  apply GetIPRoute_inv in Hget
    as [(statusCode & record & dataONTAP & _ & _ & -> & -> & ->) | (e & -> & -> & ->)]; cbn.
  - split; [right; auto | right; eauto].
  - split; [left; reflexivity | right; eauto].
Qed.

(** X12. When the prior state is read without an error, the client and the
    cluster version are obtained and the destination is set, the one read
    [Read] puts on the wire is the query of [GetIPRoute] for the string
    values of the prior address and virtual server name and for the
    cluster's version (the prior netmask, gateway, metric and UUID are not
    part of it); with a null, unknown or empty virtual server name it is a
    cluster-scoped query with no "svm.name" filter. *)
Theorem Read_queries_by_prior_address_and_svm {rawSyntax : fmt.GoSyntax RawRecord}
    (GetCluster : restclient.RestClient -> interfaces.Cluster + utils.ClassifiedError)
    (r : provider.IPRouteResource) (req : provider.ReadRequest)
    (w : World (option provider.IPRouteResourceModel))
    (client : restclient.RestClient) (cluster : interfaces.Cluster)
    (destination : provider.DestinationDataSourceModel) :
  let data := tfsdk.GetValue (provider.ReadState req) in
  let q := interfaces.GetIPRoute_query (types.ValueString (provider.Address destination))
             (types.ValueString (provider.SVMName data)) (interfaces.Version cluster) in
  diag.HasError (Diagnostics w ++ tfsdk.GetDiagnostics (provider.ReadState req)) = false ->
  provider.NewClient (provider.providerConfig (provider.config r))
    (types.ValueString (provider.CxProfileName data)) = inl client ->
  GetCluster client = inl cluster ->
  provider.Destination data = Some destination ->
  Calls (provider.IPRouteResource_Read GetCluster r req w).2
    = Calls w ++ [restclient.mkCall restclient.GET "/network/ip/routes" (Some q) None] /\
  (types.ValueString (provider.SVMName data) = "" ->
   restclient.Values q !! "scope" = Some ["cluster"] /\
   restclient.Values q !! "svm.name" = None).
Proof.
  intros data q Hok Hclient Hcluster Hdestination. subst data q. split.
  - rewrite Read_steps, Hok, Hclient, Hcluster, Hdestination.
    match goal with
    | |- context [interfaces.GetIPRoute ?c ?a ?s ?v ?w0] =>
        destruct (GetIPRoute_done c a s v w0) as (restInfo & err & w1 & Hget)
    end.
    rewrite Hget.
    apply GetIPRoute_inv in Hget
      as [(statusCode & record & dataONTAP & _ & _ & -> & -> & ->) | (e & -> & -> & ->)];
      reflexivity.
  - intros ->. split; reflexivity.
Qed.

Lemma Read_queries_by_prior_address_and_svm_witness :
  Calls (provider.IPRouteResource_Read (rawSyntax := sample.opaqueSyntax _)
           (fun _ => inl (interfaces.mkCluster sample.v9_8))
           (sample.resource sample.noRecord)
           (provider.mkReadRequest
              (sample.request
                 (provider.mkIPRouteResourceModel (types.StringValue "cluster1")
                    types.StringNull
                    (Some (provider.mkDestinationModel (types.StringValue "10.0.0.0")
                             (types.StringValue "24")))
                    types.StringNull types.Int64Null (types.StringValue "1cd8a442"))))
           (sample.idle None)).2
  = [restclient.mkCall restclient.GET "/network/ip/routes"
       (Some (interfaces.GetIPRoute_query "10.0.0.0" "" sample.v9_8)) None].
Proof.
  apply (Read_queries_by_prior_address_and_svm (rawSyntax := sample.opaqueSyntax _)
           (fun _ => inl (interfaces.mkCluster sample.v9_8))
           (sample.resource sample.noRecord)
           (provider.mkReadRequest
              (sample.request
                 (provider.mkIPRouteResourceModel (types.StringValue "cluster1")
                    types.StringNull
                    (Some (provider.mkDestinationModel (types.StringValue "10.0.0.0")
                             (types.StringValue "24")))
                    types.StringNull types.Int64Null (types.StringValue "1cd8a442"))))
           (sample.idle None) sample.noRecord (interfaces.mkCluster sample.v9_8)
           (provider.mkDestinationModel (types.StringValue "10.0.0.0")
              (types.StringValue "24")));
    reflexivity.
Defined.

(** X13. After a successful [Read] the address, netmask, virtual server
    name, gateway and metric of the state are known values, whatever they
    were before: an attribute that was null in the prior state holds a string
    or a number afterwards. *)
Theorem Read_leaves_no_route_attribute_null {rawSyntax : fmt.GoSyntax RawRecord}
    (GetCluster : restclient.RestClient -> interfaces.Cluster + utils.ClassifiedError)
    (r : provider.IPRouteResource) (req : provider.ReadRequest)
    (w w' : World (option provider.IPRouteResourceModel)) :
  provider.IPRouteResource_Read GetCluster r req w = (Done tt, w') ->
  diag.HasError (Diagnostics w') = false ->
  exists (data' : provider.IPRouteResourceModel) (address netmask svm gateway : string)
         (metric : Z),
    State w' = Some data' /\
    provider.Destination data'
      = Some (provider.mkDestinationModel (types.StringValue address)
                (types.StringValue netmask)) /\
    provider.SVMName data' = types.StringValue svm /\
    provider.Gateway data' = types.StringValue gateway /\
    provider.Metric data' = types.Int64Value metric.
Proof.
  intros Hrun Hok. rewrite Read_steps in Hrun.
  destruct (diag.HasError (Diagnostics w ++ _)) eqn:Hprior.
  { injection Hrun as <-. cbn in Hok. congruence. }
  destruct (provider.NewClient _ _) as [client | e].
  2: { injection Hrun as <-. cbn in Hok. unfold reported in Hok.
       by rewrite HasError_reported in Hok. }
  destruct (GetCluster client) as [cluster | e].
  2: { injection Hrun as <-. cbn in Hok. unfold reported in Hok.
       by rewrite HasError_reported in Hok. }
  destruct (provider.Destination _) as [destination |]; [| discriminate Hrun].
  destruct (interfaces.GetIPRoute _ _ _ _ _) as [[[restInfo err] | msg] w1] eqn:Hget;
    [| discriminate Hrun].
  apply GetIPRoute_inv in Hget
    as [(statusCode & record & dataONTAP & _ & _ & -> & -> & ->) | (e & -> & -> & ->)].
  - injection Hrun as <-. cbn. eexists _, _, _, _, _, _.
    split; [reflexivity |]. cbn. auto.
  - injection Hrun as <-. cbn in Hok. unfold reported in Hok.
    by rewrite HasError_reported in Hok.
Qed.

Lemma Read_leaves_no_route_attribute_null_witness :
  exists (data' : provider.IPRouteResourceModel) (address netmask svm gateway : string)
         (metric : Z),
    State (provider.IPRouteResource_Read (rawSyntax := sample.opaqueSyntax _)
             (fun _ => inl (interfaces.mkCluster sample.v9_11))
             (sample.resource
                (sample.client (200%Z, Some (interfaces.encodeIPRouteGet sample.route), None)
                   (200%Z, sample.created, None)))
             (provider.mkReadRequest (sample.request sample.plan))
             (sample.idle (Some sample.plan))).2 = Some data' /\
    provider.Destination data'
      = Some (provider.mkDestinationModel (types.StringValue address)
                (types.StringValue netmask)) /\
    provider.SVMName data' = types.StringValue svm /\
    provider.Gateway data' = types.StringValue gateway /\
    provider.Metric data' = types.Int64Value metric.
Proof.
  apply (Read_leaves_no_route_attribute_null (rawSyntax := sample.opaqueSyntax _)
           (fun _ => inl (interfaces.mkCluster sample.v9_11))
           (sample.resource
              (sample.client (200%Z, Some (interfaces.encodeIPRouteGet sample.route), None)
                 (200%Z, sample.created, None)))
           (provider.mkReadRequest (sample.request sample.plan))
           (sample.idle (Some sample.plan)) _ eq_refl eq_refl).
Defined.

(** ** The snapshot data source *)

Section Snapshot_cases.

Variable GetStorageVolumeSnapshots :
  restclient.RestClient -> string -> string ->
  option provider.Snapshot.StorageVolumeSnapshotGetDataModelONTAP + utils.ClassifiedError.
Variables (d : provider.Snapshot.StorageVolumeSnapshotDataSource)
          (req : provider.Snapshot.ReadRequest).
Variable w : World (option provider.Snapshot.StorageVolumeSnapshotDataSourceModel).

Let data := tfsdk.GetValue (provider.Snapshot.Config_ req).
Let diags := Diagnostics w ++ tfsdk.GetDiagnostics (provider.Snapshot.Config_ req).
Let failed (summary detail : string) :=
  (Done tt, mkWorld (diags ++ [diag.NewErrorDiagnostic summary detail]) (State w) (Calls w)).

(** What the data source's [Read] does with its configuration, step by
    step. *)
Lemma snapshot_Read_steps :
  provider.Snapshot.StorageVolumeSnapshotDataSource_Read GetStorageVolumeSnapshots d req w =
  if diag.HasError diags then (Done tt, mkWorld diags (State w) (Calls w))
  else
    match provider.NewClient (provider.providerConfig (provider.Snapshot.config d))
            (types.ValueString (provider.Snapshot.CxProfileName data)) with
    | inr e => failed (utils.summary e) (utils.detail e)
    | inl client =>
        if types.IsNull (provider.Snapshot.Name data) then
          failed "error reading snapshot" "Snapshot name is null"
        else if types.IsNull (provider.Snapshot.VolumeUUID data) then
          failed "error reading snapshot" "Volume UUID is null"
        else
          match GetStorageVolumeSnapshots client
                  (types.ValueString (provider.Snapshot.Name data))
                  (types.ValueString (provider.Snapshot.VolumeUUID data)) with
          | inr e => failed (utils.summary e) (utils.detail e)
          | inl None =>
              failed "No snapshot found"
                ("snapshot " +:+ types.ValueString (provider.Snapshot.Name data)
                   +:+ " not found.")
          | inl (Some snapshot) =>
              if PrimFloat.is_nan (provider.Snapshot.GetSize snapshot) then
                (Panic "NewFloat(NaN)", mkWorld diags (State w) (Calls w))
              else
              (Done tt,
               mkWorld diags
                 (Some (provider.Snapshot.mkSnapshotModel
                          (provider.Snapshot.CxProfileName data)
                          (types.StringValue (provider.Snapshot.GetCreateTime snapshot))
                          (types.StringValue (provider.Snapshot.GetComment snapshot))
                          (types.StringValue (provider.Snapshot.GetExpiryTime snapshot))
                          (types.StringValue (provider.Snapshot.GetName snapshot))
                          (types.Float64Value (provider.Snapshot.GetSize snapshot))
                          (types.StringValue (provider.Snapshot.GetSnapmirrorLabel snapshot))
                          (types.StringValue (provider.Snapshot.GetState snapshot))
                          (types.StringValue
                             (provider.Snapshot.VolUUID (provider.Snapshot.GetVolume snapshot)))
                          (types.StringValue
                             (provider.Snapshot.VolName (provider.Snapshot.GetVolume snapshot)))))
                 (Calls w))
          end
    end.
Proof.
  unfold provider.Snapshot.StorageVolumeSnapshotDataSource_Read, provider.getRestClient,
    provider.Snapshot.callGetStorageVolumeSnapshots, utils.MakeAndReportError, failed,
    Float64Value.
  run. unfold diag.Append. fold data diags.
  destruct (diag.HasError diags); [reflexivity |].
  destruct (provider.NewClient _ _) as [client | e]; [| reflexivity]. cbn.
  destruct (types.IsNull (provider.Snapshot.Name data)); [reflexivity |].
  destruct (types.IsNull (provider.Snapshot.VolumeUUID data)); [reflexivity |].
  destruct (GetStorageVolumeSnapshots client _ _) as [[snapshot |] | e]; try reflexivity.
  cbn. destruct (PrimFloat.is_nan _); reflexivity.
Qed.

End Snapshot_cases.

(** X14. When the configuration is read without an error, the client is
    obtained, name and volume UUID are not null and a snapshot is found whose
    size is not a NaN, the data source's [Read] sets every attribute of the
    state from the snapshot, name and volume UUID included (the configured
    ones are replaced by the returned ones), and carries over the connection
    profile name only; nothing is reported. *)
Theorem snapshot_Read_sets_attributes_from_snapshot
    (GetStorageVolumeSnapshots :
       restclient.RestClient -> string -> string ->
       option provider.Snapshot.StorageVolumeSnapshotGetDataModelONTAP + utils.ClassifiedError)
    (d : provider.Snapshot.StorageVolumeSnapshotDataSource)
    (req : provider.Snapshot.ReadRequest)
    (w : World (option provider.Snapshot.StorageVolumeSnapshotDataSourceModel))
    (client : restclient.RestClient)
    (snapshot : provider.Snapshot.StorageVolumeSnapshotGetDataModelONTAP) :
  let data := tfsdk.GetValue (provider.Snapshot.Config_ req) in
  let diags := Diagnostics w ++ tfsdk.GetDiagnostics (provider.Snapshot.Config_ req) in
  diag.HasError diags = false ->
  provider.NewClient (provider.providerConfig (provider.Snapshot.config d))
    (types.ValueString (provider.Snapshot.CxProfileName data)) = inl client ->
  types.IsNull (provider.Snapshot.Name data) = false ->
  types.IsNull (provider.Snapshot.VolumeUUID data) = false ->
  GetStorageVolumeSnapshots client (types.ValueString (provider.Snapshot.Name data))
    (types.ValueString (provider.Snapshot.VolumeUUID data)) = inl (Some snapshot) ->
  PrimFloat.is_nan (provider.Snapshot.GetSize snapshot) = false ->
  provider.Snapshot.StorageVolumeSnapshotDataSource_Read GetStorageVolumeSnapshots d req w
  = (Done tt,
     mkWorld diags
       (Some (provider.Snapshot.mkSnapshotModel
                (provider.Snapshot.CxProfileName data)
                (types.StringValue (provider.Snapshot.GetCreateTime snapshot))
                (types.StringValue (provider.Snapshot.GetComment snapshot))
                (types.StringValue (provider.Snapshot.GetExpiryTime snapshot))
                (types.StringValue (provider.Snapshot.GetName snapshot))
                (types.Float64Value (provider.Snapshot.GetSize snapshot))
                (types.StringValue (provider.Snapshot.GetSnapmirrorLabel snapshot))
                (types.StringValue (provider.Snapshot.GetState snapshot))
                (types.StringValue
                   (provider.Snapshot.VolUUID (provider.Snapshot.GetVolume snapshot)))
                (types.StringValue
                   (provider.Snapshot.VolName (provider.Snapshot.GetVolume snapshot)))))
       (Calls w)).
Proof.
  intros data diags Hok Hclient Hname Hvolume Hfound Hsize. subst data diags.
  rewrite snapshot_Read_steps, Hok, Hclient, Hname, Hvolume, Hfound, Hsize. reflexivity.
Qed.

Lemma snapshot_Read_sets_attributes_from_snapshot_witness :
  provider.Snapshot.StorageVolumeSnapshotDataSource_Read (fun _ _ _ => inl (Some sample.snapshot))
    (sample.snapshots sample.noRecord)
    (provider.Snapshot.mkReadRequest (tfsdk.mkData [] sample.snapshotModel))
    (sample.idle None)
  = (Done tt,
     mkWorld []
       (Some (provider.Snapshot.mkSnapshotModel (types.StringValue "cluster1")
                (types.StringValue "2019-02-04T19:00:00Z") (types.StringValue "nightly")
                (types.StringValue "2021-06-04T19:00:00Z") (types.StringValue "snap1")
                (types.Float64Value 0%float) (types.StringValue "mirror")
                (types.StringValue "valid") (types.StringValue "7b0f1d2a")
                (types.StringValue "vol1")))
       []).
Proof.
  apply (snapshot_Read_sets_attributes_from_snapshot (fun _ _ _ => inl (Some sample.snapshot))
           (sample.snapshots sample.noRecord)
           (provider.Snapshot.mkReadRequest (tfsdk.mkData [] sample.snapshotModel))
           (sample.idle None) sample.noRecord sample.snapshot);
    reflexivity.
Defined.

(** X15. With a null snapshot name or a null volume UUID (the configuration
    read without an error and the client obtained) the data source's [Read]
    does not look for a snapshot: its outcome is the same whatever
    [GetStorageVolumeSnapshots] would answer.  It reports "error reading
    snapshot" with the detail "Snapshot name is null" when the name is null,
    and "Volume UUID is null" otherwise, and leaves the state alone. *)
Theorem snapshot_Read_rejects_null_name_or_volume
    (lookup lookup' :
       restclient.RestClient -> string -> string ->
       option provider.Snapshot.StorageVolumeSnapshotGetDataModelONTAP + utils.ClassifiedError)
    (d : provider.Snapshot.StorageVolumeSnapshotDataSource)
    (req : provider.Snapshot.ReadRequest)
    (w : World (option provider.Snapshot.StorageVolumeSnapshotDataSourceModel))
    (client : restclient.RestClient) :
  let data := tfsdk.GetValue (provider.Snapshot.Config_ req) in
  let diags := Diagnostics w ++ tfsdk.GetDiagnostics (provider.Snapshot.Config_ req) in
  diag.HasError diags = false ->
  provider.NewClient (provider.providerConfig (provider.Snapshot.config d))
    (types.ValueString (provider.Snapshot.CxProfileName data)) = inl client ->
  types.IsNull (provider.Snapshot.Name data) = true \/
  types.IsNull (provider.Snapshot.VolumeUUID data) = true ->
  provider.Snapshot.StorageVolumeSnapshotDataSource_Read lookup d req w
  = provider.Snapshot.StorageVolumeSnapshotDataSource_Read lookup' d req w /\
  provider.Snapshot.StorageVolumeSnapshotDataSource_Read lookup d req w
  = (Done tt,
     mkWorld
       (diags ++ [diag.NewErrorDiagnostic "error reading snapshot"
                    (if types.IsNull (provider.Snapshot.Name data)
                     then "Snapshot name is null" else "Volume UUID is null")])
       (State w) (Calls w)).
Proof.
  intros data diags Hok Hclient Hnull. subst data diags.
  rewrite !snapshot_Read_steps, Hok, Hclient.
  destruct (types.IsNull (provider.Snapshot.Name _)); [split; reflexivity |].
  destruct Hnull as [Hname | Hvolume]; [discriminate Hname |].
  rewrite Hvolume. split; reflexivity.
Qed.

Lemma snapshot_Read_rejects_null_name_or_volume_witness :
  provider.Snapshot.StorageVolumeSnapshotDataSource_Read (fun _ _ _ => inl (Some sample.snapshot))
    (sample.snapshots sample.noRecord)
    (provider.Snapshot.mkReadRequest
       (tfsdk.mkData []
          (provider.Snapshot.mkSnapshotModel (types.StringValue "cluster1")
             types.StringNull types.StringNull types.StringNull (types.StringValue "snap1")
             types.Float64Null types.StringNull types.StringNull
             types.StringNull types.StringNull)))
    (sample.idle None)
  = (Done tt,
     mkWorld [diag.NewErrorDiagnostic "error reading snapshot" "Volume UUID is null"] None []).
Proof.
  apply (proj2 (snapshot_Read_rejects_null_name_or_volume
                  (fun _ _ _ => inl (Some sample.snapshot)) (fun _ _ _ => inl None)
                  (sample.snapshots sample.noRecord)
                  (provider.Snapshot.mkReadRequest
                     (tfsdk.mkData []
                        (provider.Snapshot.mkSnapshotModel (types.StringValue "cluster1")
                           types.StringNull types.StringNull types.StringNull
                           (types.StringValue "snap1") types.Float64Null types.StringNull
                           types.StringNull types.StringNull types.StringNull)))
                  (sample.idle None) sample.noRecord eq_refl eq_refl (or_intror eq_refl))).
Defined.

(** X16. The data source's [Read] fails loudly.  Either it ends normally,
    and then it has left the state as it was with an error in the
    diagnostics, or the diagnostics hold no error and the state is set; or it
    panics in [types.Float64Value], which happens only when the snapshot
    found has a NaN for its size, and then neither the state nor the
    diagnostics are set. *)
Theorem snapshot_Read_sets_state_or_reports
    (GetStorageVolumeSnapshots :
       restclient.RestClient -> string -> string ->
       option provider.Snapshot.StorageVolumeSnapshotGetDataModelONTAP + utils.ClassifiedError)
    (d : provider.Snapshot.StorageVolumeSnapshotDataSource)
    (req : provider.Snapshot.ReadRequest)
    (w : World (option provider.Snapshot.StorageVolumeSnapshotDataSourceModel)) :
  let data := tfsdk.GetValue (provider.Snapshot.Config_ req) in
  exists out w',
    provider.Snapshot.StorageVolumeSnapshotDataSource_Read GetStorageVolumeSnapshots d req w
    = (out, w') /\
    ((out = Done tt /\
      ((State w' = State w /\ diag.HasError (Diagnostics w') = true) \/
       (diag.HasError (Diagnostics w') = false /\ exists data', State w' = Some data'))) \/
     (out = Panic "NewFloat(NaN)" /\
      State w' = State w /\
      Diagnostics w' = Diagnostics w ++ tfsdk.GetDiagnostics (provider.Snapshot.Config_ req) /\
      exists client snapshot,
        GetStorageVolumeSnapshots client (types.ValueString (provider.Snapshot.Name data))
          (types.ValueString (provider.Snapshot.VolumeUUID data)) = inl (Some snapshot) /\
        PrimFloat.is_nan (provider.Snapshot.GetSize snapshot) = true)).
Proof.
  intros data. subst data. rewrite snapshot_Read_steps.
  destruct (diag.HasError _) eqn:Hok;
    [eexists _, _; split; [reflexivity | cbn; auto] |].
  destruct (provider.NewClient _ _) as [client | e].
  2: { eexists _, _. split; [reflexivity |]. cbn. left. split; [reflexivity |].
       left. by rewrite HasError_reported. }
  destruct (types.IsNull (provider.Snapshot.Name _)).
  { eexists _, _. split; [reflexivity |]. cbn. left. split; [reflexivity |].
    left. by rewrite HasError_reported. }
  destruct (types.IsNull (provider.Snapshot.VolumeUUID _)).
  { eexists _, _. split; [reflexivity |]. cbn. left. split; [reflexivity |].
    left. by rewrite HasError_reported. }
  destruct (GetStorageVolumeSnapshots client _ _) as [[snapshot |] | e] eqn:Hfound.
  - destruct (PrimFloat.is_nan _) eqn:Hsize.
    + eexists _, _. split; [reflexivity |]. cbn. right.
      split; [reflexivity |]. split; [reflexivity |]. split; [reflexivity |]. eauto.
    + eexists _, _. split; [reflexivity |]. cbn. left. split; [reflexivity |].
      right. eauto.
  - eexists _, _. split; [reflexivity |]. cbn. left. split; [reflexivity |].
    left. by rewrite HasError_reported.
  - eexists _, _. split; [reflexivity |]. cbn. left. split; [reflexivity |].
    left. by rewrite HasError_reported.
Qed.

(** A snapshot whose size is a NaN makes [Read] panic. *)
Example snapshot_Read_NaN_size :
  (provider.Snapshot.StorageVolumeSnapshotDataSource_Read
     (fun _ _ _ =>
        inl (Some (provider.Snapshot.mkSnapshotGet "" "" "" "snap1" nan "" ""
                     (provider.Snapshot.mkNameDataModel "vol1" "7b0f1d2a"))))
     (sample.snapshots sample.noRecord)
     (provider.Snapshot.mkReadRequest (tfsdk.mkData [] sample.snapshotModel))
     (sample.idle None))
  = (Panic "NewFloat(NaN)", sample.idle None).
Proof. reflexivity. Qed.

(** ** Configuring *)

(** X17. [Configure], of the resource and of the data source alike, never
    changes the name, so the type name that [Metadata] returns is the same
    before and after.  With nil provider data it changes nothing and reports
    nothing; with a [Config] it stores it and reports nothing; with provider
    data of another type it still replaces the configuration it had, by the
    zero [Config], and it reports the error "Unexpected Resource Configure
    Type" or "Unexpected Data Source Configure Type", naming the type: the
    diagnostics grow by exactly that error when they do not hold it
    already. *)
Theorem Configure_keeps_name_and_reports_wrong_type {S} (zeroConfig : provider.Config)
    (data : provider.ProviderData) (providerTypeName : string) (w : World S) :
  (forall r : provider.IPRouteResource,
      exists r' w',
        provider.IPRouteResource_Configure zeroConfig r data w = (Done r', w') /\
        provider.IPRouteResource_Metadata r' providerTypeName
          = provider.IPRouteResource_Metadata r providerTypeName /\
        match data with
        | provider.ProviderDataNil => r' = r /\ w' = w
        | provider.ProviderDataConfig c =>
            provider.providerConfig (provider.config r') = c /\ w' = w
        | provider.ProviderDataOther typeName =>
            let unexpected :=
              diag.NewErrorDiagnostic "Unexpected Resource Configure Type"
                ("Expected Config, got: " +:+ typeName +:+
                   ". Please report this issue to the provider developers.") in
            provider.providerConfig (provider.config r') = zeroConfig /\
            State w' = State w /\ Calls w' = Calls w /\
            (~ In unexpected (Diagnostics w) ->
             Diagnostics w' = Diagnostics w ++ [unexpected])
        end)
  /\
  (forall d : provider.Snapshot.StorageVolumeSnapshotDataSource,
      exists d' w',
        provider.Snapshot.StorageVolumeSnapshotDataSource_Configure zeroConfig d data w
          = (Done d', w') /\
        provider.Snapshot.StorageVolumeSnapshotDataSource_Metadata d' providerTypeName
          = provider.Snapshot.StorageVolumeSnapshotDataSource_Metadata d providerTypeName /\
        match data with
        | provider.ProviderDataNil => d' = d /\ w' = w
        | provider.ProviderDataConfig c =>
            provider.providerConfig (provider.Snapshot.config d') = c /\ w' = w
        | provider.ProviderDataOther typeName =>
            let unexpected :=
              diag.NewErrorDiagnostic "Unexpected Data Source Configure Type"
                ("Expected Config, got: " +:+ typeName +:+
                   ". Please report this issue to the provider developers.") in
            provider.providerConfig (provider.Snapshot.config d') = zeroConfig /\
            State w' = State w /\ Calls w' = Calls w /\
            (~ In unexpected (Diagnostics w) ->
             Diagnostics w' = Diagnostics w ++ [unexpected])
        end).
Proof.
  split.
  - intros r. unfold provider.IPRouteResource_Configure, provider.IPRouteResource_Metadata.
    destruct data as [| c | typeName]; run; eexists _, _;
      (split; [reflexivity | split; [reflexivity |]]); cbn;
      [by destruct w | by destruct w |].
    split; [reflexivity |]. split; [reflexivity |]. split; [reflexivity |].
    intros _. reflexivity.
  - intros d.
    unfold provider.Snapshot.StorageVolumeSnapshotDataSource_Configure,
      provider.Snapshot.StorageVolumeSnapshotDataSource_Metadata.
    destruct data as [| c | typeName]; run; eexists _, _;
      (split; [reflexivity | split; [reflexivity |]]); cbn;
      [by destruct w | by destruct w |].
    split; [reflexivity |]. split; [reflexivity |]. split; [reflexivity |].
    intros _. reflexivity.
Qed.

Lemma Configure_keeps_name_and_reports_wrong_type_witness :
  exists r' w',
    provider.IPRouteResource_Configure sample.noConfig (sample.resource sample.noRecord)
      (provider.ProviderDataOther "string") (sample.idle tt) = (Done r', w') /\
    provider.providerConfig (provider.config r') = sample.noConfig /\
    Diagnostics w'
    = [diag.NewErrorDiagnostic "Unexpected Resource Configure Type"
         "Expected Config, got: string. Please report this issue to the provider developers."].
Proof.
  destruct (proj1 (Configure_keeps_name_and_reports_wrong_type sample.noConfig
                     (provider.ProviderDataOther "string") "netapp-ontap" (sample.idle tt))
              (sample.resource sample.noRecord))
    as (r' & w' & Hrun & _ & Hcase).
  cbn in Hcase. destruct Hcase as (Hconfig & _ & _ & Hdiags).
  exists r', w'. split; [exact Hrun |]. split; [exact Hconfig |].
  apply Hdiags. intros [].
Defined.
